(** * Healthcare fraud dashboard: data preparation, filters and aggregates

    A shallow embedding of [fraud_dashboard.py]: the loader [load_data] and
    the filter and aggregation steps of [main].

    Modelling conventions.
    - A pandas [DataFrame] is a list of rows in row order; a [Series] is the
      list of the cells of one column.  A missing cell ([NaN], [NaT]) is
      [None].
    - A parsed [Timestamp] is the number of days since 1970-01-01 (the dates
      of the data set carry no time of day).
    - Python floats are idealised as exact rationals ([Q]); their equality is
      [Qeq].
    - An exception is a [Raise] in the [result] type. *)

From Stdlib Require Import ZArith QArith Qround Lia Lqa Bool Ascii String List.
From stdpp Require Import base option list gmap strings sorting.

Local Open Scope Z_scope.

(** ** Python strings *)

Module PyStr.

(** [str.isspace] on the characters below 128. *)
Definition isspace (c : ascii) : bool :=
  let n := Z.of_N (N_of_ascii c) in
  ((9 <=? n) && (n <=? 13)) || ((28 <=? n) && (n <=? 32)).

(** [s.split(sep)] for a one-character separator: never empty, keeps
    empty fields. *)
Fixpoint split (sep : ascii) (s : string) : list string :=
  match s with
  | EmptyString => [EmptyString]
  | String c s' =>
      if Ascii.eqb c sep then EmptyString :: split sep s'
      else match split sep s' with
           | [] => [String c EmptyString]
           | t :: ts => String c t :: ts
           end
  end.

Fixpoint lstrip (s : string) : string :=
  match s with
  | EmptyString => EmptyString
  | String c s' => if isspace c then lstrip s' else s
  end.

Fixpoint rstrip (s : string) : string :=
  match s with
  | EmptyString => EmptyString
  | String c s' =>
      match rstrip s' with
      | EmptyString => if isspace c then EmptyString else String c EmptyString
      | t => String c t
      end
  end.

(** [s.strip()] *)
Definition strip (s : string) : string := rstrip (lstrip s).

Definition digit_of (c : ascii) : option Z :=
  let n := Z.of_N (N_of_ascii c) in
  if (48 <=? n) && (n <=? 57) then Some (n - 48) else None.

Fixpoint digits (s : string) (acc : Z) : option Z :=
  match s with
  | EmptyString => Some acc
  | String c s' =>
      match digit_of c with
      | Some d => digits s' (10 * acc + d)
      | None => None
      end
  end.

(** A decimal field of between [lo] and [hi] digits. *)
Definition number (lo hi : nat) (s : string) : option Z :=
  let n := String.length s in
  if (lo <=? n)%nat && (n <=? hi)%nat then digits s 0 else None.

(** [sep.join(l)] for a one-character separator. *)
Fixpoint join (sep : ascii) (l : list string) : string :=
  match l with
  | [] => EmptyString
  | [s] => s
  | s :: l' => (s ++ String sep (join sep l'))%string
  end.

Definition all_space (s : string) : Prop :=
  Forall (fun c => isspace c = true) (list_ascii_of_string s).

Definition head_space (s : string) : bool :=
  match s with
  | EmptyString => false
  | String c _ => isspace c
  end.

Fixpoint last_space (s : string) : bool :=
  match s with
  | EmptyString => false
  | String c EmptyString => isspace c
  | String _ s' => last_space s'
  end.

End PyStr.

(** ** Dates *)

Module Calendar.

Definition is_leap (y : Z) : bool :=
  ((y mod 4 =? 0) && negb (y mod 100 =? 0)) || (y mod 400 =? 0).

Definition days_in_month (y m : Z) : Z :=
  if m =? 2 then (if is_leap y then 29 else 28)
  else if (m =? 4) || (m =? 6) || (m =? 9) || (m =? 11) then 30
  else 31.

Definition valid (y m d : Z) : bool :=
  (1 <=? m) && (m <=? 12) && (1 <=? d) && (d <=? days_in_month y m).

(** Days since 1970-01-01 of a day of the proleptic Gregorian calendar. *)
Definition days_from_civil (y m d : Z) : Z :=
  let y' := if m <=? 2 then y - 1 else y in
  let era := y' / 400 in
  let yoe := y' - era * 400 in
  let mp := if 2 <? m then m - 3 else m + 9 in
  let doy := (153 * mp + 2) / 5 + d - 1 in
  let doe := yoe * 365 + yoe / 4 - yoe / 100 + doy in
  era * 146097 + doe - 719468.

(** The day after a day of the calendar. *)
Definition next_day (y m d : Z) : Z * Z * Z :=
  if d <? days_in_month y m then (y, m, d + 1)
  else if m <? 12 then (y, m + 1, 1)
  else (y + 1, 1, 1).

Definition day_number (ymd : Z * Z * Z) : Z :=
  let '(y, m, d) := ymd in days_from_civil y m d.

End Calendar.

(** A [Timestamp]: days since the epoch.  [None] is [NaT]. *)
Definition timestamp := Z.

(** [pd.to_datetime(cell, dayfirst=True, errors='coerce')] on one cell, for
    the [DD/MM/YYYY] layout the loader's comment names: day and month of one
    or two digits, a year of four, separated by [/].  A missing cell, another
    layout or a day that does not exist is coerced to [NaT]. *)
Definition to_datetime (cell : option string) : option timestamp :=
  match cell with
  | None => None
  | Some s =>
      match PyStr.split "/"%char s with
      | [ds; ms; ys] =>
          match PyStr.number 1 2 ds, PyStr.number 1 2 ms, PyStr.number 4 4 ys with
          | Some d, Some m, Some y =>
              if Calendar.valid y m d then Some (Calendar.days_from_civil y m d)
              else None
          | _, _, _ => None
          end
      | _ => None
      end
  end.

(** ** The data set *)

(** One line of [healthcare_fraud_claims_clean.csv] as [read_csv] returns
    it. *)
Record raw_row := RawRow {
  raw_ClaimID : option string;
  raw_Provider : option string;
  raw_ClaimType : option string;
  raw_AttendingDate : option string;
  raw_ClaimEndDate : option string;
  raw_InscClaimAmtReimbursed : option Q;
  raw_LengthOfStay : option Q;
  raw_Gender : option Z;
  raw_Race : option Z;
  raw_ChronicConditionList : option string;
  raw_ChronicConditionCount : option Q;
  raw_PotentialFraud : option string;
  raw_ClaimYear : option Z
}.

(** One row of the data frame [load_data] returns. *)
Record row := Row {
  ClaimID : option string;
  Provider : option string;
  ClaimType : option string;
  AttendingDate : option timestamp;
  ClaimEndDate : option timestamp;
  InscClaimAmtReimbursed : option Q;
  LengthOfStay : option Q;
  Gender : option string;
  Race : option string;
  ChronicConditionList : option string;
  ChronicConditionCount : option Q;
  PotentialFraud : option string;
  ClaimYear : option Z;
  ClaimDuration : option Z
}.

Definition frame := list row.

(** ** Series operations used by the loader *)

Module Series.

(** [a - b] on two datetime series: a [Timedelta] in days, [NaT] where
    either side is. *)
Definition sub (a b : list (option timestamp)) : list (option Z) :=
  zip_with (fun x y =>
              match x, y with
              | Some u, Some v => Some (u - v)
              | _, _ => None
              end) a b.

(** [.dt.days] *)
Definition dt_days (s : list (option Z)) : list (option Z) := s.

(** [s + k] *)
Definition add (k : Z) (s : list (option Z)) : list (option Z) :=
  map (fun x => match x with Some v => Some (v + k) | None => None end) s.

(** [s.map(d)] with a dict: a key absent from the dict gives [NaN]. *)
Definition map_dict (d : gmap Z string) (s : list (option Z))
  : list (option string) :=
  map (fun x => match x with Some k => d !! k | None => None end) s.

(** [s.dropna()] *)
Definition dropna {A} (s : list (option A)) : list A := omap id s.

End Series.

(** ** [load_data] *)

Definition gender_dict : gmap Z string :=
  <[1 := "Male"%string]> (<[2 := "Female"%string]> ∅).

Definition race_dict : gmap Z string :=
  <[1 := "White"%string]> (<[2 := "Black"%string]> (<[3 := "Asian"%string]>
  (<[4 := "Other"%string]> (<[5 := "Other"%string]> ∅)))).

(** The [for condition_list in ...] loop: one iteration. *)
Definition extend_conditions (all_conditions : list string)
    (condition_list : string) : list string :=
  let conditions := PyStr.split ","%char condition_list in
  all_conditions ++ map PyStr.strip conditions.

(** The cell of a column at row [i]. *)
Definition cell {A} (col : list (option A)) (i : nat) : option A :=
  mjoin (col !! i).

Definition load_data (csv : list raw_row) : frame * list string :=
  let attending := map to_datetime (map raw_AttendingDate csv) in
  let claim_end := map to_datetime (map raw_ClaimEndDate csv) in
  let duration := Series.add 1 (Series.dt_days (Series.sub claim_end attending)) in
  let gender := Series.map_dict gender_dict (map raw_Gender csv) in
  let race := Series.map_dict race_dict (map raw_Race csv) in
  let all_conditions :=
    fold_left extend_conditions
      (Series.dropna (map raw_ChronicConditionList csv)) [] in
  (imap (fun i r =>
           {| ClaimID := raw_ClaimID r;
              Provider := raw_Provider r;
              ClaimType := raw_ClaimType r;
              AttendingDate := cell attending i;
              ClaimEndDate := cell claim_end i;
              InscClaimAmtReimbursed := raw_InscClaimAmtReimbursed r;
              LengthOfStay := raw_LengthOfStay r;
              Gender := cell gender i;
              Race := cell race i;
              ChronicConditionList := raw_ChronicConditionList r;
              ChronicConditionCount := raw_ChronicConditionCount r;
              PotentialFraud := raw_PotentialFraud r;
              ClaimYear := raw_ClaimYear r;
              ClaimDuration := cell duration i |}) csv,
   all_conditions).

(** ** Exceptions *)

Inductive exn := IndexError | ValueError.

Inductive result (A : Type) :=
| Ok (a : A)
| Raise (e : exn).
Arguments Ok {A} a.
Arguments Raise {A} e.

Definition bind {A B} (m : result A) (k : A -> result B) : result B :=
  match m with
  | Ok a => k a
  | Raise e => Raise e
  end.

Notation "x <~ m ;; k" := (bind m (fun x => k))
  (at level 100, m at next level, right associativity).

(** ** Sorting

    A stable insertion sort: [x] is placed in front of the first [y] with
    [before x y], so rows that compare equal keep their order. *)

Section StableSort.
Context {A : Type} (before : A -> A -> bool).

Fixpoint insert_sorted (x : A) (l : list A) : list A :=
  match l with
  | [] => [x]
  | y :: l' => if before x y then x :: l else y :: insert_sorted x l'
  end.

Definition stable_sort (l : list A) : list A := foldr insert_sorted [] l.
End StableSort.

(** ** Series reductions and comparisons *)

Module Stat.

Definition qsum (v : list Q) : Q := foldr Qplus 0%Q v.

Definition of_nat (n : nat) : Q := inject_Z (Z.of_nat n).

(** [s.sum()]: missing values are skipped. *)
Definition sum (s : list (option Q)) : Q := qsum (Series.dropna s).

(** [s.count()]: the number of values present. *)
Definition count {A} (s : list (option A)) : nat := length (Series.dropna s).

(** [s.mean()]: missing values are skipped; [NaN] when nothing is left. *)
Definition mean (s : list (option Q)) : option Q :=
  match Series.dropna s with
  | [] => None
  | v => Some (qsum v / of_nat (length v))%Q
  end.

(** [mask.mean()] of a boolean series. *)
Definition bool_mean (mask : list bool) : option Q :=
  mean (map (fun b : bool => Some (if b then 1%Q else 0%Q)) mask).

(** [s.min()] and [s.max()] of a datetime series: [NaT] is skipped. *)
Definition min (s : list (option Z)) : option Z :=
  match Series.dropna s with
  | [] => None
  | x :: xs => Some (fold_left Z.min xs x)
  end.

Definition max (s : list (option Z)) : option Z :=
  match Series.dropna s with
  | [] => None
  | x :: xs => Some (fold_left Z.max xs x)
  end.

(** Round half to even, to an integer and to two decimals ([.round(2)]). *)
Definition rint (q : Q) : Z :=
  let fl := Qfloor q in
  match (q - inject_Z fl ?= 1 # 2)%Q with
  | Lt => fl
  | Gt => fl + 1
  | Eq => if Z.even fl then fl else fl + 1
  end.

Definition round2 (q : Q) : Q := (inject_Z (rint (q * 100)) / 100)%Q.

(** [val > k] on a float: false on [NaN]. *)
Definition gt (val : option Q) (k : Q) : bool :=
  match val with
  | Some v => negb (Qle_bool v k)
  | None => false
  end.

(** [cell == s] on an object column: false on [NaN]. *)
Definition eq_str (c : option string) (s : string) : bool :=
  bool_decide (c = Some s).

(** [cell >= t] and [cell <= t] on a datetime column: false on [NaT]. *)
Definition ge_ts (c : option timestamp) (t : timestamp) : bool :=
  match c with Some d => t <=? d | None => false end.

Definition le_ts (c : option timestamp) (t : timestamp) : bool :=
  match c with Some d => d <=? t | None => false end.

(** [col.isin(values)] on one cell. *)
Definition isin (values : list (option string)) (c : option string) : bool :=
  bool_decide (c ∈ values).

End Stat.

(** ** The sidebar filters of [main] *)

(** [date_range] is what the date picker returns: a pair when both ends are
    chosen, a shorter tuple otherwise. *)
Definition date_filter (date_range : list timestamp) (df : frame) : frame :=
  match date_range with
  | [start_date; end_date] =>
      List.filter (fun r => Stat.ge_ts (AttendingDate r) start_date
                            && Stat.le_ts (AttendingDate r) end_date) df
  | _ => df
  end.

Definition min_date (df : frame) : option timestamp :=
  Stat.min (map AttendingDate df).

Definition max_date (df : frame) : option timestamp :=
  Stat.max (map AttendingDate df).

Definition provider_filter (selected_provider : string) (df : frame) : frame :=
  if bool_decide (selected_provider <> "All Providers"%string)
  then List.filter (fun r => Stat.eq_str (Provider r) selected_provider) df
  else df.

Definition fraud_mapping : gmap string string :=
  <["Potential Fraud"%string := "Yes"%string]>
    (<["No Fraud"%string := "No"%string]> ∅).

Definition fraud_status_filter (fraud_status : list string) (df : frame) : frame :=
  if bool_decide ("All Claims"%string ∉ fraud_status) then
    let selected_status := omap (fun status => fraud_mapping !! status) fraud_status in
    List.filter (fun r => Stat.isin (map Some selected_status) (PotentialFraud r)) df
  else df.

Definition claim_type_filter (claim_types : list (option string)) (df : frame)
  : frame :=
  match claim_types with
  | [] => df
  | _ => List.filter (fun r => Stat.isin claim_types (ClaimType r)) df
  end.

Definition apply_filters (date_range : list timestamp) (selected_provider : string)
    (fraud_status : list string) (claim_types : list (option string))
    (df : frame) : frame :=
  claim_type_filter claim_types
    (fraud_status_filter fraud_status
       (provider_filter selected_provider (date_filter date_range df))).

(** [t.strftime(...)]: [NaT] does not support it.  The text produced is not
    modelled, the formatted day stands for it. *)
Definition strftime (t : option timestamp) : result timestamp :=
  match t with
  | Some d => Ok d
  | None => Raise ValueError
  end.

(** The "Data Summary" box that closes the sidebar. *)
Definition sidebar_summary (df_filtered : frame)
  : result (nat * timestamp * timestamp) :=
  lo <~ strftime (min_date df_filtered) ;;
  hi <~ strftime (max_date df_filtered) ;;
  Ok (length df_filtered, lo, hi).

(** ** Key performance indicators *)

Definition total_claims (df_filtered : frame) : nat := length df_filtered.

Definition fraud_count (df_filtered : frame) : nat :=
  length (List.filter (fun r => Stat.eq_str (PotentialFraud r) "Yes") df_filtered).

Definition fraud_percentage (df_filtered : frame) : Q :=
  if (0 <? total_claims df_filtered)%nat
  then (Stat.of_nat (fraud_count df_filtered)
        / Stat.of_nat (total_claims df_filtered) * 100)%Q
  else 0%Q.

Definition avg_claim_amount (df_filtered : frame) : option Q :=
  Stat.mean (map InscClaimAmtReimbursed df_filtered).

Definition avg_length_of_stay (df_filtered : frame) : option Q :=
  Stat.mean (map LengthOfStay df_filtered).

(** ** [value_counts] *)

(** One more occurrence of [k]; a new category goes last. *)
Fixpoint bump (k : string) (acc : list (string * nat)) : list (string * nat) :=
  match acc with
  | [] => [(k, 1%nat)]
  | (k', n) :: acc' =>
      if String.eqb k k' then (k', S n) :: acc' else (k', n) :: bump k acc'
  end.

(** Occurrences per category, categories in first-encountered order. *)
Definition tally (values : list string) : list (string * nat) :=
  fold_left (fun acc k => bump k acc) values [].

Definition by_count_desc (x y : string * nat) : bool := (snd y <=? snd x)%nat.

(** [s.value_counts()]: missing cells are dropped, the most frequent
    category comes first. *)
Definition value_counts (s : list (option string)) : list (string * nat) :=
  stable_sort by_count_desc (tally (Series.dropna s)).

Definition total_count (dist : list (string * nat)) : nat :=
  foldr (fun kc acc => (snd kc + acc)%nat) 0%nat dist.

(** [dist.index[0]] and [dist.iloc[0]] *)
Definition first_of {A} (l : list A) : result A :=
  match l with
  | [] => Raise IndexError
  | x :: _ => Ok x
  end.

(** [dist.get(k, 0)] *)
Definition get_count (k : string) (dist : list (string * nat)) : nat :=
  match List.find (fun kc => String.eqb (fst kc) k) dist with
  | Some kc => snd kc
  | None => 0%nat
  end.

(** ** The overview tab *)

Record overview := Overview {
  fraud_dist : list (string * nat);
  claim_dist : list (string * nat);
  top_claim_type : string;
  top_claim_count : nat;
  gender_dist : list (string * nat);
  gender_ratio : Q;
  race_dist : list (string * nat);
  dominant_race : string;
  dominant_count : nat
}.

Definition claim_type_insight (df_filtered : frame) : result (string * nat) :=
  let claim_dist := value_counts (map ClaimType df_filtered) in
  top_claim_type <~ first_of (map fst claim_dist) ;;
  top_claim_count <~ first_of (map snd claim_dist) ;;
  Ok (top_claim_type, top_claim_count).

Definition gender_insight (df_filtered : frame) : Q :=
  let gender_dist := value_counts (map Gender df_filtered) in
  if (0 <? total_count gender_dist)%nat
  then (Stat.of_nat (get_count "Male" gender_dist)
        / Stat.of_nat (total_count gender_dist) * 100)%Q
  else 0%Q.

Definition race_insight (df_filtered : frame) : result (string * nat) :=
  let race_dist := value_counts (map Race df_filtered) in
  dominant_race <~ first_of (map fst race_dist) ;;
  dominant_count <~ first_of (map snd race_dist) ;;
  Ok (dominant_race, dominant_count).

Definition overview_tab (df_filtered : frame) : result overview :=
  let fraud_dist := value_counts (map PotentialFraud df_filtered) in
  let claim_dist := value_counts (map ClaimType df_filtered) in
  top_claim <~ claim_type_insight df_filtered ;;
  let gender_dist := value_counts (map Gender df_filtered) in
  let gender_ratio := gender_insight df_filtered in
  let race_dist := value_counts (map Race df_filtered) in
  dominant <~ race_insight df_filtered ;;
  Ok {| fraud_dist := fraud_dist;
        claim_dist := claim_dist;
        top_claim_type := fst top_claim;
        top_claim_count := snd top_claim;
        gender_dist := gender_dist;
        gender_ratio := gender_ratio;
        race_dist := race_dist;
        dominant_race := fst dominant;
        dominant_count := snd dominant |}.

(** ** The provider risk panel *)

(** The distinct values of a column, in first-encountered order. *)
Fixpoint unique (l : list string) : list string :=
  match l with
  | [] => []
  | x :: l' => x :: List.filter (fun y => negb (String.eqb x y)) (unique l')
  end.

(** [df.groupby(key)]: one group per value present in the key column (rows
    whose key is missing belong to no group), groups in key order, rows in
    frame order. *)
Definition groupby (key : row -> option string) (df : frame)
  : list (string * frame) :=
  map (fun k => (k, List.filter (fun r => Stat.eq_str (key r) k) df))
      (stable_sort String.leb (unique (Series.dropna (map key df)))).

Record provider_stat := ProviderStat {
  stat_Provider : string;
  Fraud_Rate_pct : option Q;
  Avg_Claim : option Q;
  Total_Claims : Q;
  Claim_Count : nat;
  Avg_LOS_days : option Q
}.

(** [lambda x: (x == 'Yes').mean() * 100] *)
Definition yes_rate (x : list (option string)) : option Q :=
  option_map (fun m => (m * 100)%Q)
    (Stat.bool_mean (map (fun c => Stat.eq_str c "Yes") x)).

Definition aggregate_provider (kg : string * frame) : provider_stat :=
  let g := snd kg in
  {| stat_Provider := fst kg;
     Fraud_Rate_pct := option_map Stat.round2 (yes_rate (map PotentialFraud g));
     Avg_Claim := option_map Stat.round2 (Stat.mean (map InscClaimAmtReimbursed g));
     Total_Claims := Stat.round2 (Stat.sum (map InscClaimAmtReimbursed g));
     Claim_Count := Stat.count (map InscClaimAmtReimbursed g);
     Avg_LOS_days := option_map Stat.round2 (Stat.mean (map LengthOfStay g)) |}.

(** Descending order of a float column, [NaN] last. *)
Definition desc (a b : option Q) : bool :=
  match a, b with
  | Some u, Some v => Qle_bool v u
  | Some _, None => true
  | None, Some _ => false
  | None, None => true
  end.

Definition by_fraud_rate_desc (x y : provider_stat) : bool :=
  desc (Fraud_Rate_pct x) (Fraud_Rate_pct y).

(** [provider_stats] after [sort_values('Fraud_Rate_%', ascending=False)].
    The source's sort leaves the order of equal rates open; it is modelled
    by the stable one. *)
Definition provider_stats (df_filtered : frame) : list provider_stat :=
  stable_sort by_fraud_rate_desc
    (map aggregate_provider (groupby Provider df_filtered)).

Definition red : string := "#e74c3c".
Definition orange : string := "#f39c12".
Definition green : string := "#2ecc71".

Definition fraud_rate_color (val : option Q) : string :=
  if Stat.gt val 30 then red else if Stat.gt val 15 then orange else green.

Definition color_fraud_rate (val : option Q) : string :=
  ("color: " ++ fraud_rate_color val ++ "; font-weight: bold;")%string.

(** [provider_stats.head(15).style.map(color_fraud_rate, ...)]: the rows
    shown, each with the style of its fraud rate cell. *)
Definition styled_df (df_filtered : frame) : list (provider_stat * string) :=
  map (fun s => (s, color_fraud_rate (Fraud_Rate_pct s)))
      (firstn 15 (provider_stats df_filtered)).

(** ** Condition frequencies *)

(** [Counter(all_conditions).most_common(10)] *)
Definition top_conditions (all_conditions : list string) : list (string * nat) :=
  firstn 10 (stable_sort by_count_desc (tally all_conditions)).

(** ** The loader, row by row, and the specification's wording *)

(** What [load_data] makes of one line of the file. *)
Definition load_row (r : raw_row) : row :=
  {| ClaimID := raw_ClaimID r;
     Provider := raw_Provider r;
     ClaimType := raw_ClaimType r;
     AttendingDate := to_datetime (raw_AttendingDate r);
     ClaimEndDate := to_datetime (raw_ClaimEndDate r);
     InscClaimAmtReimbursed := raw_InscClaimAmtReimbursed r;
     LengthOfStay := raw_LengthOfStay r;
     Gender := match raw_Gender r with Some k => gender_dict !! k | None => None end;
     Race := match raw_Race r with Some k => race_dict !! k | None => None end;
     ChronicConditionList := raw_ChronicConditionList r;
     ChronicConditionCount := raw_ChronicConditionCount r;
     PotentialFraud := raw_PotentialFraud r;
     ClaimYear := raw_ClaimYear r;
     ClaimDuration :=
       match to_datetime (raw_ClaimEndDate r), to_datetime (raw_AttendingDate r) with
       | Some e, Some a => Some (e - a + 1)
       | _, _ => None
       end |}.

(** The remapping of the gender and race codes as the specification words
    it: a total function, every other code is missing. *)
Definition spec_gender (code : option Z) : option string :=
  match code with
  | Some k =>
      if k =? 1 then Some "Male"%string
      else if k =? 2 then Some "Female"%string
      else None
  | None => None
  end.

Definition spec_race (code : option Z) : option string :=
  match code with
  | Some k =>
      if k =? 1 then Some "White"%string
      else if k =? 2 then Some "Black"%string
      else if k =? 3 then Some "Asian"%string
      else if (k =? 4) || (k =? 5) then Some "Other"%string
      else None
  | None => None
  end.

(** The tokens one line contributes: its condition list split on commas,
    each token trimmed; nothing when the list is missing. *)
Definition row_conditions (r : raw_row) : list string :=
  match raw_ChronicConditionList r with
  | Some s => map PyStr.strip (PyStr.split ","%char s)
  | None => []
  end.

(** The flat condition sequence as the specification words it. *)
Definition spec_conditions (csv : list raw_row) : list string :=
  concat (map row_conditions csv).

(** A line of the file with the given dates, codes and condition list, the
    other cells missing. *)
Definition raw_line (attending claim_end : option string)
    (gender race : option Z) (conditions : option string) : raw_row :=
  {| raw_ClaimID := None; raw_Provider := None; raw_ClaimType := None;
     raw_AttendingDate := attending; raw_ClaimEndDate := claim_end;
     raw_InscClaimAmtReimbursed := None; raw_LengthOfStay := None;
     raw_Gender := gender; raw_Race := race;
     raw_ChronicConditionList := conditions;
     raw_ChronicConditionCount := None; raw_PotentialFraud := None;
     raw_ClaimYear := None |}.


(** ** [main] up to the overview tab *)

Record kpis := Kpis {
  kpi_total_claims : nat;
  kpi_fraud_count : nat;
  kpi_fraud_percentage : Q;
  kpi_avg_claim_amount : option Q;
  kpi_avg_length_of_stay : option Q
}.

(** The run of [main] on the loaded frame [df] for one state of the sidebar
    controls: the filters, the data summary, the indicators and the first
    tab, in the order of the source.  An exception ends the run. *)
Definition main (df : frame) (date_range : list timestamp)
    (selected_provider : string) (fraud_status : list string)
    (claim_types : list (option string))
  : result (nat * timestamp * timestamp * kpis * overview) :=
  let df_filtered :=
    apply_filters date_range selected_provider fraud_status claim_types df in
  summary <~ sidebar_summary df_filtered ;;
  let indicators :=
    {| kpi_total_claims := total_claims df_filtered;
       kpi_fraud_count := fraud_count df_filtered;
       kpi_fraud_percentage := fraud_percentage df_filtered;
       kpi_avg_claim_amount := avg_claim_amount df_filtered;
       kpi_avg_length_of_stay := avg_length_of_stay df_filtered |} in
  tab1 <~ overview_tab df_filtered ;;
  Ok (summary, indicators, tab1).

(** The fraud count as the specification words it: the number of rows whose
    fraud flag is "Yes". *)
Fixpoint spec_fraud_count (df : frame) : nat :=
  match df with
  | [] => 0%nat
  | r :: df' =>
      if decide (PotentialFraud r = Some "Yes"%string)
      then S (spec_fraud_count df')
      else spec_fraud_count df'
  end.

(** A claim with the given provider, claim type, fraud flag, attending day
    and gender, the other cells missing. *)
Definition claim (provider claim_type fraud : string)
    (attending : option timestamp) (gender : option string) : row :=
  {| ClaimID := None; Provider := Some provider; ClaimType := Some claim_type;
     AttendingDate := attending; ClaimEndDate := None;
     InscClaimAmtReimbursed := None; LengthOfStay := None;
     Gender := gender; Race := None;
     ChronicConditionList := None; ChronicConditionCount := None;
     PotentialFraud := Some fraud; ClaimYear := None; ClaimDuration := None |}.

(** A provider with ten claims, four of them flagged. *)
Definition ten_claims_four_fraud : frame :=
  repeat (claim "PRV1" "Inpatient" "Yes" (Some 18293) (Some "Male"%string)) 4
  ++ repeat (claim "PRV1" "Outpatient" "No" (Some 18297) (Some "Female"%string)) 6.

(** ** The provider panel in the specification's wording *)

(** The rows of provider [p]. *)
Definition provider_rows (p : string) (df : frame) : frame :=
  List.filter (fun r => Stat.eq_str (Provider r) p) df.

(** [fraud rows / provider rows * 100] *)
Definition exact_rate (p : string) (df : frame) : Q :=
  (Stat.of_nat (spec_fraud_count (provider_rows p df))
   / Stat.of_nat (length (provider_rows p df)) * 100)%Q.

(** The fraud rate of [x] is at least that of [y]. *)
Definition rate_ge (x y : provider_stat) : Prop :=
  exists a b, Fraud_Rate_pct x = Some a /\ Fraud_Rate_pct y = Some b /\ (b <= a)%Q.



(** ** The medical tab *)

(** [pd.DataFrame(top_conditions)] read at its first row, with the guard of
    the source for an empty ranking. *)
Definition common_condition_insight (all_conditions : list string)
  : string * nat :=
  match top_conditions all_conditions with
  | [] => ("N/A"%string, 0%nat)
  | (top_condition, top_condition_count) :: _ =>
      (top_condition, top_condition_count)
  end.

(** One entry of [condition_data]. *)
Record condition_row := ConditionRow {
  Condition : string;
  cond_PotentialFraud : option string;
  cond_Provider : option string
}.

(** The body of the [iterrows] loop: the entries one row appends. *)
Definition explode_row (condition_data : list condition_row) (r : row)
  : list condition_row :=
  match ChronicConditionList r with
  | Some s =>
      fold_left
        (fun acc condition =>
           acc ++ [{| Condition := PyStr.strip condition;
                      cond_PotentialFraud := PotentialFraud r;
                      cond_Provider := Provider r |}])
        (PyStr.split ","%char s) condition_data
  | None => condition_data
  end.

Definition condition_data (df_filtered : frame) : list condition_row :=
  fold_left explode_row df_filtered [].

Definition by_rate_desc (x y : string * option Q) : bool :=
  desc (snd x) (snd y).

(** [condition_df.groupby('Condition')['PotentialFraud'].apply(...)
    .sort_values(ascending=False).head(15)] *)
Definition condition_fraud_rate (condition_data : list condition_row)
  : list (string * option Q) :=
  firstn 15
    (stable_sort by_rate_desc
       (map (fun k =>
               (k, yes_rate
                     (map cond_PotentialFraud
                        (List.filter (fun c => String.eqb (Condition c) k)
                           condition_data))))
          (stable_sort String.leb (unique (map Condition condition_data))))).


(** The number of occurrences of [k] in a list of labels. *)
Definition occurrences (k : string) (values : list string) : nat :=
  count_occ string_dec values k.

(** No row of the frame has a value in the column. *)
Definition no_value {A} (col : row -> option A) (df : frame) : Prop :=
  Forall (fun r => col r = None) df.

(** A step that keeps the rows passing a test on the row alone. *)
Definition row_filter (f : frame -> frame) : Prop :=
  exists keep : row -> bool, forall df, f df = List.filter keep df.

(** The number of flags equal to "Yes". *)
Definition yes_count (flags : list (option string)) : nat :=
  length (List.filter (fun c => Stat.eq_str c "Yes") flags).

(** The entries of [condition_data] for condition [k]. *)
Definition condition_rows (k : string) (cd : list condition_row)
  : list condition_row :=
  List.filter (fun c => String.eqb (Condition c) k) cd.


(** ** Grouping on two columns *)

(** The key of a row for [groupby([c1, c2])]: missing when either cell is. *)
Definition key2 {A B} (c1 : row -> option A) (c2 : row -> option B) (r : row)
  : option (A * B) :=
  match c1 r, c2 r with
  | Some a, Some b => Some (a, b)
  | _, _ => None
  end.

Section Groups.
Context {K : Type} `{EqDecision K}.

(** The rows of the group of key [k]. *)
Definition group_rows (key : row -> option K) (k : K) (df : frame) : frame :=
  List.filter (fun r => bool_decide (key r = Some k)) df.

(** The group keys: the keys present, once each, in the order [before]. *)
Definition group_keys (before : K -> K -> bool) (key : row -> option K)
    (df : frame) : list K :=
  stable_sort before (remove_dups (Series.dropna (map key df))).

(** [df.groupby(...).size().reset_index(name='Count')] *)
Definition group_sizes (before : K -> K -> bool) (key : row -> option K)
    (df : frame) : list (K * nat) :=
  map (fun k => (k, length (group_rows key k df))) (group_keys before key df).
End Groups.

(** ** The trend tab *)

(** Year first, then fraud flag. *)
Definition year_flag_before (x y : Z * string) : bool :=
  (fst x <? fst y) || ((fst x =? fst y) && String.leb (snd x) (snd y)).

Definition claims_over_time (df_filtered : frame) : list (Z * string * nat) :=
  group_sizes year_flag_before (key2 ClaimYear PotentialFraud) df_filtered.

(** The insight under the yearly chart: the latest year with flagged claims
    and its count, when there is one. *)
Definition latest_fraud_year (df_filtered : frame) : option (Z * nat) :=
  match claims_over_time df_filtered with
  | [] => None
  | cot =>
      match List.filter (fun e => String.eqb (snd (fst e)) "Yes") cot with
      | [] => None
      | e :: es =>
          let fraud_trend := e :: es in
          let latest_year :=
            fold_left Z.max (map (fun e => fst (fst e)) es) (fst (fst e)) in
          let latest :=
            List.filter (fun e => fst (fst e) =? latest_year) fraud_trend in
          Some (latest_year,
                match latest with
                | [] => 0%nat
                | e' :: _ => snd e'
                end)
      end
  end.

(** ** The service mix of the provider tab *)

(** The rows with both a provider and a claim type. *)
Definition with_provider_and_type (df : frame) : frame :=
  List.filter (fun r => bool_decide (is_Some (key2 Provider ClaimType r))) df.

(** [groupby(['Provider', 'ClaimType']).size().unstack(fill_value=0)]: one
    line per provider and one count per claim type. *)
Definition claim_type_by_provider (df_filtered : frame)
  : list (string * list (string * nat)) :=
  let both := with_provider_and_type df_filtered in
  let providers := stable_sort String.leb (unique (Series.dropna (map Provider both))) in
  let claim_types := stable_sort String.leb (unique (Series.dropna (map ClaimType both))) in
  map (fun p =>
         (p, map (fun t =>
                    (t, length (List.filter
                                  (fun r => Stat.eq_str (Provider r) p
                                            && Stat.eq_str (ClaimType r) t)
                                  df_filtered)))
                 claim_types))
      providers.

(** [claim_type_by_provider.sum(axis=1)] on one line. *)
Definition line_total (line : string * list (string * nat)) : nat :=
  list_sum (map snd (snd line)).

Definition by_total_desc (x y : string * list (string * nat)) : bool :=
  (line_total y <=? line_total x)%nat.

(** [nlargest(10, 'Total')] *)
Definition top_providers (df_filtered : frame)
  : list (string * list (string * nat)) :=
  firstn 10 (stable_sort by_total_desc (claim_type_by_provider df_filtered)).

(** * Properties *)

(** ** The loader *)

Section Columns.
Context {A B : Type}.

Lemma cell_map (f : A -> option B) (l : list A) (i : nat) (x : A) :
  l !! i = Some x -> cell (map f l) i = f x.
Proof.
  intros Hi. unfold cell.
  change (map f l) with (f <$> l).
  now rewrite list_lookup_fmap, Hi.
Qed.

Lemma map_imap_cell (f : nat -> A -> B) (g : A -> B) (l : list A) :
  (forall i x, l !! i = Some x -> f i x = g x) ->
  imap f l = map g l.
Proof.
  intros Hfg. apply list_eq. intros i.
  change (map g l) with (g <$> l).
  rewrite list_lookup_imap, list_lookup_fmap.
  destruct (l !! i) as [x|] eqn:Hi; simpl; [|reflexivity].
  now rewrite (Hfg i x Hi).
Qed.
End Columns.

Lemma duration_cell (csv : list raw_row) (i : nat) (r : raw_row) :
  csv !! i = Some r ->
  cell (Series.add 1 (Series.dt_days
          (Series.sub (map to_datetime (map raw_ClaimEndDate csv))
                      (map to_datetime (map raw_AttendingDate csv))))) i
  = ClaimDuration (load_row r).
Proof.
  intros Hi. unfold cell, Series.add, Series.dt_days, Series.sub.
  change map with (@fmap list _) at 1.
  rewrite list_lookup_fmap, lookup_zip_with.
  change map with (@fmap list _).
  rewrite !list_lookup_fmap, Hi. simpl.
  destruct (to_datetime (raw_ClaimEndDate r)), (to_datetime (raw_AttendingDate r));
    reflexivity.
Qed.

(** The frame of [load_data] is the file, line by line. *)
Lemma load_data_rows (csv : list raw_row) :
  fst (load_data csv) = map load_row csv.
Proof.
  unfold load_data. cbn [fst].
  apply map_imap_cell. intros i r Hi.
  unfold load_row. f_equal.
  - rewrite map_map. now apply (cell_map (fun r => to_datetime (raw_AttendingDate r))).
  - rewrite map_map. now apply (cell_map (fun r => to_datetime (raw_ClaimEndDate r))).
  - unfold Series.map_dict. rewrite map_map.
    now rewrite (cell_map _ csv i r Hi).
  - unfold Series.map_dict. rewrite map_map.
    now rewrite (cell_map _ csv i r Hi).
  - now apply duration_cell.
Qed.


Lemma gender_dict_spec (code : option Z) :
  match code with Some k => gender_dict !! k | None => None end = spec_gender code.
Proof.
  destruct code as [k|]; [|reflexivity]. unfold spec_gender, gender_dict.
  destruct (Z.eqb_spec k 1) as [->|H1]; [reflexivity|].
  destruct (Z.eqb_spec k 2) as [->|H2]; [reflexivity|].
  rewrite !lookup_insert_ne by congruence. apply lookup_empty.
Qed.

Lemma race_dict_spec (code : option Z) :
  match code with Some k => race_dict !! k | None => None end = spec_race code.
Proof.
  destruct code as [k|]; [|reflexivity]. unfold spec_race, race_dict.
  destruct (Z.eqb_spec k 1) as [->|H1]; [reflexivity|].
  destruct (Z.eqb_spec k 2) as [->|H2]; [reflexivity|].
  destruct (Z.eqb_spec k 3) as [->|H3]; [reflexivity|].
  destruct (Z.eqb_spec k 4) as [->|H4]; [reflexivity|].
  destruct (Z.eqb_spec k 5) as [->|H5]; [reflexivity|].
  rewrite !lookup_insert_ne by congruence. apply lookup_empty.
Qed.

(** C4. The loader maps gender code 1 to "Male", 2 to "Female" and every
    other code to a missing value; race code 1 to "White", 2 to "Black",
    3 to "Asian", 4 and 5 both to "Other", and every other code to a missing
    value. *)
Theorem category_remapping (csv : list raw_row) :
  map Gender (fst (load_data csv)) = map (fun r => spec_gender (raw_Gender r)) csv
  /\ map Race (fst (load_data csv)) = map (fun r => spec_race (raw_Race r)) csv.
Proof.
  rewrite load_data_rows, !map_map. split; apply map_ext; intros r; simpl.
  - apply gender_dict_spec.
  - apply race_dict_spec.
Qed.

Lemma extend_conditions_fold (lists : list string) (acc : list string) :
  fold_left extend_conditions lists acc
  = acc ++ concat (map (fun s => map PyStr.strip (PyStr.split ","%char s)) lists).
Proof.
  revert acc. induction lists as [|s lists IH]; intros acc; simpl.
  - now rewrite app_nil_r.
  - rewrite IH. unfold extend_conditions. now rewrite <- app_assoc.
Qed.

Lemma dropna_conditions (csv : list raw_row) :
  concat (map (fun s => map PyStr.strip (PyStr.split ","%char s))
            (Series.dropna (map raw_ChronicConditionList csv)))
  = spec_conditions csv.
Proof.
  unfold spec_conditions, Series.dropna.
  induction csv as [|r csv IH]; [reflexivity|].
  cbn [map omap list_omap concat]. unfold row_conditions at 1.
  destruct (raw_ChronicConditionList r) as [s|]; cbn [id map concat app].
  - f_equal. exact IH.
  - exact IH.
Qed.


(** ** Filters *)

Lemma filter_bool_decide {A} (P : A -> Prop) `{forall x, Decision (P x)}
    (l : list A) :
  List.filter (fun x => bool_decide (P x)) l = filter P l.
Proof.
  induction l as [|x l IH]; [reflexivity|].
  simpl. rewrite filter_cons, IH.
  destruct (decide (P x)) as [Hp|Hp].
  - now rewrite bool_decide_eq_true_2.
  - now rewrite bool_decide_eq_false_2.
Qed.

Lemma filter_none {A} (l : list A) : List.filter (fun _ => false) l = [].
Proof. induction l; simpl; auto. Qed.

(** C9. With a non-empty selection the claim-type filter keeps exactly the
    rows whose claim type is in the selection, in their order; with an
    empty selection it excludes no row. *)
Theorem claim_type_filter_keeps_selected
    (claim_types : list (option string)) (df : frame) :
  (claim_types <> [] ->
   claim_type_filter claim_types df
   = filter (fun r => ClaimType r ∈ claim_types) df)
  /\ claim_type_filter [] df = df.
Proof.
  split; [|reflexivity].
  intros Hne. destruct claim_types as [|c cs]; [congruence|].
  unfold claim_type_filter, Stat.isin.
  apply (filter_bool_decide (fun r => ClaimType r ∈ c :: cs)).
Qed.

Lemma claim_type_filter_keeps_selected_witness :
  [Some "Inpatient"%string] <> []
  /\ claim_type_filter [Some "Inpatient"%string] ten_claims_four_fraud
     = filter (fun r => ClaimType r ∈ [Some "Inpatient"%string])
         ten_claims_four_fraud.
Proof.
  split; [discriminate|].
  apply (proj1 (claim_type_filter_keeps_selected
                  [Some "Inpatient"%string] ten_claims_four_fraud)).
  discriminate.
Defined.

Lemma fraud_status_filter_nil (df : frame) : fraud_status_filter [] df = [].
Proof.
  unfold fraud_status_filter.
  rewrite bool_decide_eq_true_2 by (intros H; inversion H).
  cbn [omap list_omap map]. unfold Stat.isin.
  erewrite filter_ext; [apply filter_none|].
  intros r. apply bool_decide_eq_false_2. intros H; inversion H.
Qed.

(** C10. With an empty fraud-status selection the fraud-status filter keeps
    the rows whose flag is in the empty mapped set, that is none, whereas
    the claim-type filter with an empty selection keeps every row. *)
Theorem empty_fraud_status_shows_nothing (df : frame) :
  omap (fun status => fraud_mapping !! status) ([] : list string) = []
  /\ fraud_status_filter [] df = []
  /\ claim_type_filter [] df = df.
Proof.
  split; [reflexivity|]. split; [apply fraud_status_filter_nil|reflexivity].
Qed.

(** An empty fraud-status selection empties the filtered subset whatever
    the other controls say. *)
Lemma apply_filters_no_status (date_range : list timestamp)
    (selected_provider : string) (claim_types : list (option string))
    (df : frame) :
  apply_filters date_range selected_provider [] claim_types df = [].
Proof.
  unfold apply_filters. rewrite fraud_status_filter_nil.
  now destruct claim_types.
Qed.

(** ** Indicators *)

Lemma fraud_count_spec (df : frame) : fraud_count df = spec_fraud_count df.
Proof.
  unfold fraud_count, Stat.eq_str.
  induction df as [|r df IH]; [reflexivity|].
  cbn [List.filter spec_fraud_count].
  destruct (decide (PotentialFraud r = Some "Yes"%string)) as [Hy|Hn].
  - rewrite bool_decide_eq_true_2 by exact Hy. cbn [length]. now rewrite IH.
  - rewrite bool_decide_eq_false_2 by exact Hn. exact IH.
Qed.

Lemma fraud_count_le_total (df : frame) : (fraud_count df <= total_claims df)%nat.
Proof. unfold fraud_count, total_claims. apply List.filter_length_le. Qed.

(** C2. The fraud count is the number of rows whose fraud flag is "Yes";
    the fraud percentage is [fraud_count / total_claims * 100] when there is
    at least one claim and 0 when there is none. *)
Theorem fraud_count_and_percentage (df : frame) :
  fraud_count df = spec_fraud_count df
  /\ ((0 < total_claims df)%nat ->
      (fraud_percentage df
       == Stat.of_nat (spec_fraud_count df) / Stat.of_nat (total_claims df) * 100)%Q)
  /\ (total_claims df = 0%nat -> (fraud_percentage df == 0)%Q).
Proof.
  split; [apply fraud_count_spec|]. unfold fraud_percentage. split.
  - intros Hpos. apply Nat.ltb_lt in Hpos. rewrite Hpos, fraud_count_spec.
    reflexivity.
  - intros Hz. rewrite Hz. reflexivity.
Qed.

Lemma fraud_count_and_percentage_witness :
  (0 < total_claims ten_claims_four_fraud)%nat
  /\ (fraud_percentage ten_claims_four_fraud
      == Stat.of_nat (spec_fraud_count ten_claims_four_fraud)
         / Stat.of_nat (total_claims ten_claims_four_fraud) * 100)%Q
  /\ total_claims ([] : frame) = 0%nat
  /\ (fraud_percentage [] == 0)%Q.
Proof.
  split; [vm_compute; lia|]. split.
  - apply (proj1 (proj2 (fraud_count_and_percentage ten_claims_four_fraud))).
    vm_compute; lia.
  - split; [reflexivity|].
    apply (proj2 (proj2 (fraud_count_and_percentage []))). reflexivity.
Defined.

(** The percentage lies between 0 and 100. *)
Lemma fraud_percentage_bounds (df : frame) :
  (0 <= fraud_percentage df /\ fraud_percentage df <= 100)%Q.
Proof.
  unfold fraud_percentage.
  destruct (0 <? total_claims df)%nat eqn:Hpos; [|split; discriminate].
  apply Nat.ltb_lt in Hpos.
  pose proof (fraud_count_le_total df) as Hle.
  unfold Stat.of_nat.
  assert (Ht : (0 < inject_Z (Z.of_nat (total_claims df)))%Q).
  { change 0%Q with (inject_Z 0). rewrite <- Zlt_Qlt. lia. }
  assert (Hf : (0 <= inject_Z (Z.of_nat (fraud_count df)))%Q).
  { change 0%Q with (inject_Z 0). rewrite <- Zle_Qle. lia. }
  assert (Hft : (inject_Z (Z.of_nat (fraud_count df))
                 <= inject_Z (Z.of_nat (total_claims df)))%Q).
  { rewrite <- Zle_Qle. lia. }
  split.
  - apply Qmult_le_0_compat; [|discriminate].
    apply Qle_shift_div_l; [exact Ht|]. now rewrite Qmult_0_l.
  - apply Qle_trans with (1 * 100)%Q; [|discriminate].
    apply Qmult_le_compat_r; [|discriminate].
    apply Qle_shift_div_r; [exact Ht|]. now rewrite Qmult_1_l.
Qed.

(** ** The empty filtered subset *)

(** C1. On an empty filtered subset the fraud percentage is 0, the two means
    are [NaN], the distributions and the provider panel are empty, but
    reading the first entry of the claim-type distribution and of the race
    distribution raises [IndexError], the overview tab with them, and the
    data summary of the sidebar raises [ValueError]: the run of [main]
    ends in an exception, for instance when no fraud status is selected. *)
Theorem empty_subset_raises (df : frame) (date_range : list timestamp)
    (selected_provider : string) (claim_types : list (option string)) :
  (fraud_percentage [] == 0)%Q
  /\ avg_claim_amount [] = None
  /\ avg_length_of_stay [] = None
  /\ value_counts (map ClaimType ([] : frame)) = []
  /\ styled_df [] = []
  /\ claim_type_insight [] = Raise IndexError
  /\ race_insight [] = Raise IndexError
  /\ overview_tab [] = Raise IndexError
  /\ sidebar_summary [] = Raise ValueError
  /\ main df date_range selected_provider [] claim_types = Raise ValueError.
Proof.
  repeat (split; [reflexivity|]).
  unfold main. rewrite apply_filters_no_status. reflexivity.
Qed.

(** ** Value counts *)

Lemma total_count_bump (k : string) (acc : list (string * nat)) :
  total_count (bump k acc) = S (total_count acc).
Proof.
  induction acc as [|[k' n] acc IH]; [reflexivity|].
  simpl. destruct (String.eqb k k'); simpl; [reflexivity|].
  rewrite IH. lia.
Qed.

Lemma total_count_tally_from (values : list string) (acc : list (string * nat)) :
  total_count (fold_left (fun acc k => bump k acc) values acc)
  = (length values + total_count acc)%nat.
Proof.
  revert acc. induction values as [|k values IH]; intros acc; [reflexivity|].
  simpl. rewrite IH, total_count_bump. lia.
Qed.

Lemma total_count_insert (before : string * nat -> string * nat -> bool)
    (x : string * nat) (l : list (string * nat)) :
  total_count (insert_sorted before x l) = (snd x + total_count l)%nat.
Proof.
  induction l as [|y l IH]; [reflexivity|].
  simpl. destruct (before x y); simpl; [reflexivity|].
  rewrite IH. lia.
Qed.

Lemma total_count_sort (before : string * nat -> string * nat -> bool)
    (l : list (string * nat)) :
  total_count (stable_sort before l) = total_count l.
Proof.
  induction l as [|x l IH]; [reflexivity|].
  change (stable_sort before (x :: l))
    with (insert_sorted before x (stable_sort before l)).
  rewrite total_count_insert, IH. reflexivity.
Qed.

Lemma value_counts_total (s : list (option string)) :
  total_count (value_counts s) = Stat.count s.
Proof.
  unfold value_counts, tally, Stat.count.
  rewrite total_count_sort, total_count_tally_from. simpl. lia.
Qed.

Lemma dropna_filter_length {A B} (col : A -> option B) (l : list A) :
  length (Series.dropna (map col l))
  = length (filter (fun r => is_Some (col r)) l).
Proof.
  unfold Series.dropna.
  induction l as [|r l IH]; [reflexivity|].
  cbn [map omap list_omap]. rewrite filter_cons.
  destruct (col r) as [v|] eqn:Hc; cbn [id].
  - rewrite decide_True by eauto. simpl. now rewrite IH.
  - rewrite decide_False by (intros [v Hv]; discriminate). exact IH.
Qed.

Lemma filter_all {A} (P : A -> Prop) `{forall x, Decision (P x)} (l : list A) :
  Forall P l -> filter P l = l.
Proof.
  induction 1 as [|x l Hx Hl IH]; [reflexivity|].
  rewrite filter_cons, decide_True by exact Hx. now rewrite IH.
Qed.

(** C6, as stated, fails: a line with gender code 3 loads with a missing
    gender, which [value_counts] drops; the gender distribution of that one
    row sums to 0. *)
Lemma gender_counts_skip_unmapped_code :
  total_count
    (value_counts
       (map Gender (fst (load_data [raw_line None None (Some 3) (Some 1) None]))))
  <> length (fst (load_data [raw_line None None (Some 3) (Some 1) None])).
Proof. vm_compute. discriminate. Qed.

(** C6, amended. For every column (fraud status, claim type, gender, race)
    the counts of its distribution sum to the number of rows of the filtered
    subset whose value in that column is present; they sum to the number of
    rows when no value of the column is missing. *)
Theorem value_counts_sum_present (col : row -> option string) (df : frame) :
  total_count (value_counts (map col df))
  = length (filter (fun r => is_Some (col r)) df)
  /\ (Forall (fun r => is_Some (col r)) df ->
      total_count (value_counts (map col df)) = length df).
Proof.
  assert (Hsum : total_count (value_counts (map col df))
                 = length (filter (fun r => is_Some (col r)) df)).
  { rewrite value_counts_total. apply dropna_filter_length. }
  split; [exact Hsum|].
  intros Hall. rewrite Hsum. now rewrite (filter_all _ df Hall).
Qed.

Lemma value_counts_sum_present_witness :
  Forall (fun r => is_Some (ClaimType r)) ten_claims_four_fraud
  /\ total_count (value_counts (map ClaimType ten_claims_four_fraud)) = 10%nat.
Proof.
  assert (Hall : Forall (fun r => is_Some (ClaimType r)) ten_claims_four_fraud).
  { repeat constructor; eexists; reflexivity. }
  split; [exact Hall|].
  exact (proj2 (value_counts_sum_present ClaimType ten_claims_four_fraud) Hall).
Defined.

(** ** The date range *)

Lemma fold_min_le (xs : list Z) (x : Z) :
  fold_left Z.min xs x <= x /\ Forall (fun y => fold_left Z.min xs x <= y) xs.
Proof.
  revert x. induction xs as [|y xs IH]; intros x; simpl.
  - split; [lia|constructor].
  - destruct (IH (Z.min x y)) as [H1 H2]. split; [lia|].
    constructor; [lia|exact H2].
Qed.

Lemma fold_max_ge (xs : list Z) (x : Z) :
  x <= fold_left Z.max xs x /\ Forall (fun y => y <= fold_left Z.max xs x) xs.
Proof.
  revert x. induction xs as [|y xs IH]; intros x; simpl.
  - split; [lia|constructor].
  - destruct (IH (Z.max x y)) as [H1 H2]. split; [lia|].
    constructor; [lia|exact H2].
Qed.

Lemma in_dropna {A} (s : list (option A)) (x : A) :
  In (Some x) s -> In x (Series.dropna s).
Proof.
  unfold Series.dropna. induction s as [|c s IH]; [easy|].
  intros [->|Hin]; cbn [omap list_omap id].
  - now left.
  - destruct c; [right|]; auto.
Qed.

Lemma series_min_le (s : list (option Z)) (lo d : Z) :
  Stat.min s = Some lo -> In (Some d) s -> lo <= d.
Proof.
  unfold Stat.min. intros Hmin Hin. apply in_dropna in Hin.
  destruct (Series.dropna s) as [|x xs]; [discriminate|].
  injection Hmin as <-. destruct (fold_min_le xs x) as [H1 H2].
  destruct Hin as [->|Hin]; [exact H1|].
  rewrite List.Forall_forall in H2. now apply H2.
Qed.

Lemma series_max_ge (s : list (option Z)) (hi d : Z) :
  Stat.max s = Some hi -> In (Some d) s -> d <= hi.
Proof.
  unfold Stat.max. intros Hmax Hin. apply in_dropna in Hin.
  destruct (Series.dropna s) as [|x xs]; [discriminate|].
  injection Hmax as <-. destruct (fold_max_ge xs x) as [H1 H2].
  destruct Hin as [->|Hin]; [exact H1|].
  rewrite List.Forall_forall in H2. now apply H2.
Qed.

Lemma full_range_filter (df : frame) (lo hi : timestamp) :
  min_date df = Some lo -> max_date df = Some hi ->
  date_filter [lo; hi] df = filter (fun r => is_Some (AttendingDate r)) df.
Proof.
  intros Hlo Hhi. unfold date_filter.
  rewrite <- (filter_bool_decide (fun r => is_Some (AttendingDate r))).
  apply List.filter_ext_in. intros r Hr.
  destruct (AttendingDate r) as [d|] eqn:Hd; unfold Stat.ge_ts, Stat.le_ts.
  - assert (Hin : In (Some d) (map AttendingDate df)).
    { rewrite <- Hd. now apply in_map. }
    pose proof (series_min_le _ _ _ Hlo Hin).
    pose proof (series_max_ge _ _ _ Hhi Hin).
    rewrite (bool_decide_eq_true_2 (is_Some (Some d))) by eauto.
    apply andb_true_intro. split; apply Z.leb_le; assumption.
  - symmetry. apply bool_decide_eq_false_2. intros [v Hv]. discriminate.
Qed.

(** C8, as stated, fails: a line whose attending date does not parse is
    kept when no date filter applies and dropped by the filter over the
    whole range of the data set. *)
Lemma full_range_drops_undated_rows :
  min_date (fst (load_data
     [raw_line (Some "01/02/2020"%string) None None None None;
      raw_line (Some "unknown"%string) None None None None])) = Some 18293
  /\ max_date (fst (load_data
     [raw_line (Some "01/02/2020"%string) None None None None;
      raw_line (Some "unknown"%string) None None None None])) = Some 18293
  /\ length (date_filter [18293; 18293] (fst (load_data
       [raw_line (Some "01/02/2020"%string) None None None None;
        raw_line (Some "unknown"%string) None None None None])))
     <> length (date_filter [] (fst (load_data
       [raw_line (Some "01/02/2020"%string) None None None None;
        raw_line (Some "unknown"%string) None None None None]))).
Proof. repeat split; try reflexivity. vm_compute. discriminate. Qed.

(** C8, amended. The date-range filter from the minimum to the maximum
    attending date keeps exactly the rows whose attending date is present;
    its row count is that of no date filter when no attending date is
    missing. *)
Theorem full_date_range_keeps_dated_rows (df : frame) (lo hi : timestamp) :
  min_date df = Some lo -> max_date df = Some hi ->
  date_filter [lo; hi] df = filter (fun r => is_Some (AttendingDate r)) df
  /\ length (date_filter [lo; hi] df) = Stat.count (map AttendingDate df)
  /\ (Forall (fun r => is_Some (AttendingDate r)) df ->
      length (date_filter [lo; hi] df) = length (date_filter [] df)).
Proof.
  intros Hlo Hhi.
  pose proof (full_range_filter df lo hi Hlo Hhi) as Heq.
  split; [exact Heq|]. rewrite Heq. split.
  - unfold Stat.count. symmetry. apply dropna_filter_length.
  - intros Hall. now rewrite (filter_all _ df Hall).
Qed.

Lemma full_date_range_keeps_dated_rows_witness :
  min_date ten_claims_four_fraud = Some 18293
  /\ max_date ten_claims_four_fraud = Some 18297
  /\ Forall (fun r => is_Some (AttendingDate r)) ten_claims_four_fraud
  /\ length (date_filter [18293; 18297] ten_claims_four_fraud)
     = length (date_filter [] ten_claims_four_fraud).
Proof.
  assert (Hall : Forall (fun r => is_Some (AttendingDate r)) ten_claims_four_fraud).
  { repeat constructor; eexists; reflexivity. }
  split; [reflexivity|]. split; [reflexivity|]. split; [exact Hall|].
  exact (proj2 (proj2 (full_date_range_keeps_dated_rows ten_claims_four_fraud
                         18293 18297 eq_refl eq_refl)) Hall).
Defined.

(** ** Sorting *)

Section StableSortFacts.
Context {A : Type} (before : A -> A -> bool).

Lemma insert_sorted_perm (x : A) (l : list A) :
  Permutation (insert_sorted before x l) (x :: l).
Proof.
  induction l as [|y l IH]; [reflexivity|].
  simpl. destruct (before x y); [reflexivity|].
  rewrite IH. apply perm_swap.
Qed.

Lemma stable_sort_perm (l : list A) : Permutation (stable_sort before l) l.
Proof.
  induction l as [|x l IH]; [reflexivity|].
  change (stable_sort before (x :: l))
    with (insert_sorted before x (stable_sort before l)).
  rewrite insert_sorted_perm. now constructor.
Qed.

Lemma stable_sort_In (l : list A) (x : A) :
  In x (stable_sort before l) <-> In x l.
Proof.
  split; apply Permutation_in;
    [apply stable_sort_perm | symmetry; apply stable_sort_perm].
Qed.

Hypothesis before_total : forall x y, before x y = false -> before y x = true.

Lemma insert_sorted_Sorted (x : A) (l : list A) :
  Sorted (fun a b => before a b = true) l ->
  Sorted (fun a b => before a b = true) (insert_sorted before x l).
Proof.
  induction 1 as [|y l Hs IH Hd]; simpl.
  - repeat constructor.
  - destruct (before x y) eqn:Hxy.
    + constructor; [constructor; assumption|]. now constructor.
    + constructor; [exact IH|].
      destruct l as [|z l]; simpl.
      * constructor. now apply before_total.
      * destruct (before x z); constructor.
        -- now apply before_total.
        -- now inversion Hd.
Qed.

Lemma stable_sort_Sorted (l : list A) :
  Sorted (fun a b => before a b = true) (stable_sort before l).
Proof.
  induction l as [|x l IH]; [constructor|].
  change (stable_sort before (x :: l))
    with (insert_sorted before x (stable_sort before l)).
  now apply insert_sorted_Sorted.
Qed.
End StableSortFacts.

(** ** Rounding *)

Lemma rint_Qeq (p q : Q) : (p == q)%Q -> Stat.rint p = Stat.rint q.
Proof.
  intros H. unfold Stat.rint.
  rewrite (Qfloor_comp p q H).
  assert (Hc : (p - inject_Z (Qfloor q) ?= 1 # 2)%Q
               = (q - inject_Z (Qfloor q) ?= 1 # 2)%Q).
  { apply Qcompare_comp; [|reflexivity]. now rewrite H. }
  now rewrite Hc.
Qed.

Lemma round2_Qeq (p q : Q) : (p == q)%Q -> (Stat.round2 p == Stat.round2 q)%Q.
Proof.
  intros H. unfold Stat.round2.
  rewrite (rint_Qeq (p * 100) (q * 100)); [reflexivity|].
  now rewrite H.
Qed.

(** ** The provider panel *)

Lemma unique_In (l : list string) (x : string) : In x (unique l) <-> In x l.
Proof.
  induction l as [|y l IH]; [reflexivity|].
  simpl. rewrite List.filter_In, IH. split.
  - intros [->|[Hin _]]; auto.
  - intros [->|Hin]; [now left|].
    destruct (String.eqb_spec y x) as [->|Hne]; [now left|].
    right. split; [exact Hin|reflexivity].
Qed.

Lemma dropna_In {A} (s : list (option A)) (x : A) :
  In x (Series.dropna s) <-> In (Some x) s.
Proof.
  split; [|apply in_dropna].
  unfold Series.dropna. induction s as [|c s IH]; [easy|].
  cbn [omap list_omap]. destruct c as [v|]; cbn [id].
  - intros [->|Hin]; [now left|right; auto].
  - intros Hin. right; auto.
Qed.

(** The groups of [groupby]: one per key present, holding the rows of that
    key, hence never empty. *)
Lemma groupby_In (key : row -> option string) (df : frame)
    (k : string) (g : frame) :
  In (k, g) (groupby key df) <->
  In (Some k) (map key df)
  /\ g = List.filter (fun r => Stat.eq_str (key r) k) df.
Proof.
  unfold groupby. split.
  - intros Hin. apply in_map_iff in Hin as (k' & Heq & Hin).
    injection Heq as -> <-.
    apply stable_sort_In, unique_In, dropna_In in Hin. auto.
  - intros [Hin ->]. apply in_map_iff. exists k. split; [reflexivity|].
    now apply stable_sort_In, unique_In, dropna_In.
Qed.

Lemma group_nonempty (key : row -> option string) (df : frame) (k : string) :
  In (Some k) (map key df) ->
  List.filter (fun r => Stat.eq_str (key r) k) df <> [].
Proof.
  intros Hin. apply in_map_iff in Hin as (r & Hk & Hr).
  assert (Hf : In r (List.filter (fun r => Stat.eq_str (key r) k) df)).
  { apply List.filter_In. split; [exact Hr|].
    unfold Stat.eq_str. now apply bool_decide_eq_true_2. }
  intros Hnil. now rewrite Hnil in Hf.
Qed.

Lemma of_nat_S (n : nat) : (Stat.of_nat (S n) == 1 + Stat.of_nat n)%Q.
Proof.
  unfold Stat.of_nat. rewrite Nat2Z.inj_succ, <- Z.add_1_l, inject_Z_plus.
  reflexivity.
Qed.

Lemma qsum_flags (g : frame) :
  (Stat.qsum
     (map (fun r => if Stat.eq_str (PotentialFraud r) "Yes" then 1%Q else 0%Q) g)
   == Stat.of_nat (spec_fraud_count g))%Q.
Proof.
  induction g as [|r g IH]; [reflexivity|].
  cbn [map Stat.qsum foldr spec_fraud_count]. unfold Stat.eq_str at 1.
  fold (Stat.qsum
          (map (fun r => if Stat.eq_str (PotentialFraud r) "Yes" then 1%Q else 0%Q) g)).
  destruct (decide (PotentialFraud r = Some "Yes"%string)) as [Hy|Hn].
  - rewrite bool_decide_eq_true_2 by exact Hy. now rewrite of_nat_S, IH.
  - rewrite bool_decide_eq_false_2 by exact Hn. now rewrite IH, Qplus_0_l.
Qed.

Lemma dropna_map_Some {A B} (f : A -> B) (l : list A) :
  Series.dropna (map (fun x => Some (f x)) l) = map f l.
Proof.
  unfold Series.dropna. induction l as [|x l IH]; [reflexivity|].
  cbn [map omap list_omap id]. now rewrite IH.
Qed.

(** The rate of a non-empty group is [fraud rows / rows * 100]. *)
Lemma yes_rate_group (g : frame) :
  g <> [] ->
  exists q, yes_rate (map PotentialFraud g) = Some q
            /\ (q == Stat.of_nat (spec_fraud_count g)
                     / Stat.of_nat (length g) * 100)%Q.
Proof.
  intros Hne. unfold yes_rate, Stat.bool_mean, Stat.mean.
  rewrite !map_map.
  rewrite (dropna_map_Some
             (fun r => if Stat.eq_str (PotentialFraud r) "Yes" then 1%Q else 0%Q) g).
  destruct g as [|r g]; [congruence|].
  pose proof (qsum_flags (r :: g)) as Hsum.
  cbn [map] in *. cbn [option_map].
  eexists. split; [reflexivity|].
  rewrite Hsum. cbn [length]. now rewrite length_map.
Qed.

(** Every row of the panel is the aggregate of the rows of one provider
    that occurs in the frame. *)
Lemma provider_stats_In (df : frame) (s : provider_stat) :
  In s (provider_stats df) <->
  In (Some (stat_Provider s)) (map Provider df)
  /\ s = aggregate_provider (stat_Provider s, provider_rows (stat_Provider s) df).
Proof.
  unfold provider_stats. rewrite stable_sort_In. split.
  - intros Hin. apply in_map_iff in Hin as ([k g] & <- & Hin).
    apply groupby_In in Hin as [Hin ->].
    split; [exact Hin|reflexivity].
  - intros [Hin Hs]. apply in_map_iff.
    exists (stat_Provider s, provider_rows (stat_Provider s) df).
    split; [now symmetry|]. apply groupby_In. split; [exact Hin|reflexivity].
Qed.

Lemma provider_rate_rounded (df : frame) (s : provider_stat) :
  In s (provider_stats df) ->
  exists q, Fraud_Rate_pct s = Some q
            /\ (q == Stat.round2 (exact_rate (stat_Provider s) df))%Q.
Proof.
  intros Hin. apply provider_stats_In in Hin as [Hin Hs].
  destruct (yes_rate_group (provider_rows (stat_Provider s) df)) as (q & Hq & Hqe).
  { now apply group_nonempty. }
  exists (Stat.round2 q). split.
  - rewrite Hs. cbn [Fraud_Rate_pct aggregate_provider snd]. now rewrite Hq.
  - apply round2_Qeq. exact Hqe.
Qed.

Lemma desc_total (a b : option Q) : desc a b = false -> desc b a = true.
Proof.
  destruct a as [u|], b as [v|]; simpl; try easy.
  intros Hf. apply Qle_bool_iff. apply Qlt_le_weak, Qnot_le_lt.
  intros Hle. apply Qle_bool_iff in Hle. congruence.
Qed.

Lemma desc_trans (a b c : option Q) :
  desc a b = true -> desc b c = true -> desc a c = true.
Proof.
  destruct a as [u|], b as [v|], c as [w|]; simpl; try easy.
  rewrite !Qle_bool_iff. intros H1 H2. now apply Qle_trans with v.
Qed.

Lemma StronglySorted_impl_In {A} (R R' : A -> A -> Prop) (l : list A) :
  (forall x y, In x l -> In y l -> R x y -> R' x y) ->
  StronglySorted R l -> StronglySorted R' l.
Proof.
  intros Himp Hs. induction Hs as [|x l Hs IH Hall]; constructor.
  - apply IH. intros a b Ha Hb. apply Himp; now right.
  - rewrite List.Forall_forall in *. intros y Hy.
    apply Himp; [now left|now right|now apply Hall].
Qed.

Lemma provider_stats_sorted (df : frame) : StronglySorted rate_ge (provider_stats df).
Proof.
  apply StronglySorted_impl_In with (R := fun x y => by_fraud_rate_desc x y = true).
  - intros x y Hx Hy Hxy.
    destruct (provider_rate_rounded df x Hx) as (a & Ha & _).
    destruct (provider_rate_rounded df y Hy) as (b & Hb & _).
    exists a, b. repeat split; try assumption.
    unfold by_fraud_rate_desc in Hxy. rewrite Ha, Hb in Hxy.
    now apply Qle_bool_iff.
  - apply Sorted_StronglySorted.
    + intros x y z. unfold by_fraud_rate_desc. apply desc_trans.
    + apply stable_sort_Sorted. intros x y. unfold by_fraud_rate_desc.
      apply desc_total.
Qed.

Lemma firstn_In_inv {A} (n : nat) (l : list A) (x : A) :
  In x (firstn n l) -> In x l.
Proof.
  intros Hin. rewrite <- (firstn_skipn n l). apply in_or_app. now left.
Qed.





(** A rate of exactly 15 is styled green, the colour of the lowest tier. *)
Lemma color_at_fifteen : fraud_rate_color (Some 15%Q) = green.
Proof. reflexivity. Qed.




(** ** The models of the library calls *)

(** Day numbers count days: the epoch is day 0 and the day after a valid
    day has the next number. *)
Lemma epoch_day : Calendar.days_from_civil 1970 1 1 = 0.
Proof. reflexivity. Qed.

Lemma next_day_number (y m d : Z) :
  Calendar.valid y m d = true ->
  Calendar.day_number (Calendar.next_day y m d)
  = Calendar.days_from_civil y m d + 1.
Proof.
  unfold Calendar.valid. rewrite !andb_true_iff, !Z.leb_le.
  intros [[[Hm1 Hm2] Hd1] Hd2].
  assert (Hm : m = 1 \/ m = 2 \/ m = 3 \/ m = 4 \/ m = 5 \/ m = 6 \/ m = 7 \/
               m = 8 \/ m = 9 \/ m = 10 \/ m = 11 \/ m = 12) by lia.
  unfold Calendar.next_day.
  destruct (Z.ltb_spec d (Calendar.days_in_month y m)) as [Hlt|Hge].
  - unfold Calendar.day_number, Calendar.days_from_civil. lia.
  - assert (Hd : d = Calendar.days_in_month y m) by lia.
    subst d. clear Hge Hd2 Hd1.
    repeat (destruct Hm as [->|Hm]); try subst m;
      unfold Calendar.day_number, Calendar.days_in_month,
        Calendar.days_from_civil, Calendar.is_leap;
      repeat match goal with
             | |- context [Z.eqb ?a ?b] => destruct (Z.eqb_spec a b); try lia
             | |- context [Z.leb ?a ?b] => destruct (Z.leb_spec a b); try lia
             | |- context [Z.ltb ?a ?b] => destruct (Z.ltb_spec a b); try lia
             end;
      cbn [andb orb negb];
      Z.div_mod_to_equations; lia.
Qed.

(** [split] cuts at every separator and nowhere else. *)
Lemma split_not_nil (sep : ascii) (s : string) : PyStr.split sep s <> [].
Proof.
  destruct s as [|c s]; simpl; [discriminate|].
  destruct (Ascii.eqb c sep); [discriminate|].
  destruct (PyStr.split sep s); discriminate.
Qed.

Lemma split_join (sep : ascii) (s : string) :
  PyStr.join sep (PyStr.split sep s) = s.
Proof.
  induction s as [|c s IH]; [reflexivity|].
  pose proof (split_not_nil sep s) as Hne.
  cbn [PyStr.split]. destruct (Ascii.eqb_spec c sep) as [->|Hc].
  - destruct (PyStr.split sep s) as [|t ts] eqn:Hs; [congruence|].
    cbn [PyStr.join]. cbn [PyStr.join] in IH. now rewrite IH.
  - destruct (PyStr.split sep s) as [|t ts] eqn:Hs; [congruence|].
    cbn [PyStr.join] in *. destruct ts as [|t' ts].
    + now rewrite IH.
    + simpl. now rewrite <- IH.
Qed.

Lemma split_no_sep (sep : ascii) (s : string) :
  Forall (fun t => ~ In sep (list_ascii_of_string t)) (PyStr.split sep s).
Proof.
  induction s as [|c s IH]; [repeat constructor; easy|].
  cbn [PyStr.split]. destruct (Ascii.eqb_spec c sep) as [->|Hc].
  - constructor; [easy|exact IH].
  - destruct (PyStr.split sep s) as [|t ts]; [repeat constructor; simpl; intuition|].
    inversion IH as [|? ? Ht Hts]; subst. constructor; [|exact Hts].
    simpl. intros [Heq|Hin]; [congruence|contradiction].
Qed.

(** [strip] removes white space at both ends and nothing else. *)
Lemma lstrip_spec (s : string) :
  exists l, s = (l ++ PyStr.lstrip s)%string /\ PyStr.all_space l
            /\ PyStr.head_space (PyStr.lstrip s) = false.
Proof.
  induction s as [|c s (l & Hs & Hl & Hh)].
  - exists EmptyString. repeat split. constructor.
  - cbn [PyStr.lstrip]. destruct (PyStr.isspace c) eqn:Hc.
    + exists (String c l). split; [exact (f_equal (String c) Hs)|].
      split; [now constructor|exact Hh].
    + exists EmptyString. split; [reflexivity|]. split; [constructor|exact Hc].
Qed.

Lemma rstrip_spec (s : string) :
  exists r, s = (PyStr.rstrip s ++ r)%string /\ PyStr.all_space r
            /\ PyStr.last_space (PyStr.rstrip s) = false.
Proof.
  induction s as [|c s (r & Hs & Hr & Hl)].
  - exists EmptyString. repeat split. constructor.
  - cbn [PyStr.rstrip]. destruct (PyStr.rstrip s) as [|a t] eqn:Ht.
    + change (s = r) in Hs. subst r. destruct (PyStr.isspace c) eqn:Hc.
      * exists (String c s). repeat split. now constructor.
      * exists s. repeat split; [exact Hr|exact Hc].
    + exists r. split; [exact (f_equal (String c) Hs)|].
      split; [exact Hr|exact Hl].
Qed.

Lemma rstrip_head (s : string) :
  PyStr.head_space s = false -> PyStr.head_space (PyStr.rstrip s) = false.
Proof.
  destruct s as [|c s]; [reflexivity|].
  cbn [PyStr.rstrip PyStr.head_space]. intros Hc.
  destruct (PyStr.rstrip s); [now rewrite Hc|exact Hc].
Qed.

Lemma strip_spec (s : string) :
  exists l r, s = (l ++ PyStr.strip s ++ r)%string
              /\ PyStr.all_space l /\ PyStr.all_space r
              /\ PyStr.head_space (PyStr.strip s) = false
              /\ PyStr.last_space (PyStr.strip s) = false.
Proof.
  destruct (lstrip_spec s) as (l & Hs & Hl & Hh).
  destruct (rstrip_spec (PyStr.lstrip s)) as (r & Hs' & Hr & Hlast).
  exists l, r. unfold PyStr.strip. repeat split; try assumption.
  - now rewrite <- Hs'.
  - now apply rstrip_head.
Qed.

(** [rint] is a nearest integer. *)
Lemma rint_nearest (q : Q) :
  (inject_Z (Stat.rint q) - (1 # 2) <= q
   /\ q <= inject_Z (Stat.rint q) + (1 # 2))%Q.
Proof.
  unfold Stat.rint.
  pose proof (Qfloor_le q) as Hlo.
  pose proof (Qlt_floor q) as Hhi.
  rewrite inject_Z_plus in Hhi. change (inject_Z 1) with 1%Q in Hhi.
  destruct (Qcompare_spec (q - inject_Z (Qfloor q)) (1 # 2)) as [He|Hl|Hg];
    [destruct (Z.even (Qfloor q))| |];
    rewrite ?inject_Z_plus; change (inject_Z 1) with 1%Q; lra.
Qed.

(** * Further properties of the code *)

(** ** Tallies and value counts *)

Lemma bump_keys (k k' : string) (acc : list (string * nat)) :
  In k' (map fst (bump k acc)) <-> k' = k \/ In k' (map fst acc).
Proof.
  induction acc as [|[k0 n] acc IH]; simpl.
  - intuition.
  - destruct (String.eqb_spec k k0) as [->|Hne]; simpl.
    + intuition.
    + rewrite IH. intuition.
Qed.

Lemma bump_NoDup (k : string) (acc : list (string * nat)) :
  List.NoDup (map fst acc) -> List.NoDup (map fst (bump k acc)).
Proof.
  induction acc as [|[k0 n] acc IH]; simpl; intros Hnd.
  - repeat constructor. easy.
  - destruct (String.eqb_spec k k0) as [->|Hne]; simpl; [exact Hnd|].
    apply List.NoDup_cons_iff in Hnd as [Hnotin Hnd].
    apply List.NoDup_cons; [|now apply IH].
    intros Hin. apply bump_keys in Hin as [->|Hin]; [congruence|contradiction].
Qed.

Lemma bump_positive (k : string) (acc : list (string * nat)) :
  Forall (fun kc => (0 < snd kc)%nat) acc ->
  Forall (fun kc => (0 < snd kc)%nat) (bump k acc).
Proof.
  induction acc as [|[k0 n] acc IH]; simpl; intros Hpos.
  - repeat constructor.
  - inversion Hpos as [|? ? Hn Hacc]; subst.
    destruct (String.eqb k k0); constructor; simpl; auto; lia.
Qed.

Lemma get_count_bump (k k' : string) (acc : list (string * nat)) :
  get_count k' (bump k acc)
  = if String.eqb k k' then S (get_count k' acc) else get_count k' acc.
Proof.
  unfold get_count. induction acc as [|[k0 n] acc IH]; simpl.
  - now destruct (String.eqb k k').
  - destruct (String.eqb_spec k k0) as [->|Hne]; simpl.
    + now destruct (String.eqb k0 k').
    + destruct (String.eqb_spec k0 k') as [->|Hne'].
      * destruct (String.eqb_spec k k'); [congruence|reflexivity].
      * exact IH.
Qed.

Section Tally.
Variable values : list string.

Lemma tally_from_keys (acc : list (string * nat)) (k : string) :
  In k (map fst (fold_left (fun acc k => bump k acc) values acc))
  <-> In k values \/ In k (map fst acc).
Proof.
  revert acc. induction values as [|v vs IH]; intros acc; simpl.
  - intuition.
  - rewrite IH, bump_keys. intuition.
Qed.

Lemma tally_from_NoDup (acc : list (string * nat)) :
  List.NoDup (map fst acc) ->
  List.NoDup (map fst (fold_left (fun acc k => bump k acc) values acc)).
Proof.
  revert acc. induction values as [|v vs IH]; intros acc Hnd; simpl; [exact Hnd|].
  apply IH. now apply bump_NoDup.
Qed.

Lemma tally_from_positive (acc : list (string * nat)) :
  Forall (fun kc => (0 < snd kc)%nat) acc ->
  Forall (fun kc => (0 < snd kc)%nat)
    (fold_left (fun acc k => bump k acc) values acc).
Proof.
  revert acc. induction values as [|v vs IH]; intros acc Hpos; simpl; [exact Hpos|].
  apply IH. now apply bump_positive.
Qed.

Lemma tally_from_count (acc : list (string * nat)) (k : string) :
  get_count k (fold_left (fun acc k => bump k acc) values acc)
  = (occurrences k values + get_count k acc)%nat.
Proof.
  unfold occurrences. revert acc.
  induction values as [|v vs IH]; intros acc; [reflexivity|].
  cbn [fold_left count_occ]. rewrite IH, get_count_bump.
  destruct (string_dec v k) as [->|Hne].
  - rewrite String.eqb_refl. lia.
  - destruct (String.eqb_spec v k); [congruence|reflexivity].
Qed.
End Tally.

Lemma get_count_In (l : list (string * nat)) (k : string) (n : nat) :
  List.NoDup (map fst l) -> In (k, n) l -> get_count k l = n.
Proof.
  unfold get_count. induction l as [|[k0 n0] l IH]; [easy|].
  simpl. intros Hnd [Heq|Hin].
  - injection Heq as -> ->. now rewrite String.eqb_refl.
  - apply List.NoDup_cons_iff in Hnd as [Hnotin Hnd].
    destruct (String.eqb_spec k0 k) as [->|Hne]; [|now apply IH].
    exfalso. apply Hnotin. apply in_map_iff. now exists (k, n).
Qed.

Lemma get_count_absent (l : list (string * nat)) (k : string) :
  ~ In k (map fst l) -> get_count k l = 0%nat.
Proof.
  unfold get_count. induction l as [|[k0 n0] l IH]; [easy|].
  simpl. intros Hnotin.
  destruct (String.eqb_spec k0 k) as [->|Hne]; [tauto|]. apply IH. tauto.
Qed.

(** The ranking [stable_sort by_count_desc (tally values)] that
    [value_counts] and [most_common] share. *)
Lemma ranking_NoDup (values : list string) :
  List.NoDup (map fst (stable_sort by_count_desc (tally values))).
Proof.
  apply (Permutation_NoDup (l := map fst (tally values))).
  - apply Permutation_map. symmetry. apply stable_sort_perm.
  - apply tally_from_NoDup. constructor.
Qed.

Lemma ranking_In (values : list string) (k : string) (n : nat) :
  In (k, n) (stable_sort by_count_desc (tally values))
  <-> n = occurrences k values /\ (0 < n)%nat.
Proof.
  rewrite stable_sort_In. unfold tally. split.
  - intros Hin. split.
    + rewrite <- (get_count_In _ k n (tally_from_NoDup values [] (List.NoDup_nil _)) Hin).
      rewrite tally_from_count. change (get_count k []) with 0%nat. lia.
    + pose proof (tally_from_positive values [] (List.Forall_nil _)) as Hpos.
      rewrite List.Forall_forall in Hpos. exact (Hpos _ Hin).
  - intros [-> Hpos].
    assert (Hk : In k values).
    { unfold occurrences in Hpos. now apply (count_occ_In string_dec). }
    assert (Hkey : In k (map fst (fold_left (fun acc k => bump k acc) values [])))
      by (apply tally_from_keys; now left).
    apply in_map_iff in Hkey as ([k' n'] & Hfst & Hin). simpl in Hfst. subst k'.
    rewrite <- (get_count_In _ k n' (tally_from_NoDup values [] (List.NoDup_nil _)) Hin) in Hin.
    rewrite tally_from_count in Hin. change (get_count k []) with 0%nat in Hin.
    now rewrite Nat.add_0_r in Hin.
Qed.

Lemma by_count_desc_total (x y : string * nat) :
  by_count_desc x y = false -> by_count_desc y x = true.
Proof.
  unfold by_count_desc. intros H. apply Nat.leb_gt in H. apply Nat.leb_le. lia.
Qed.

Lemma ranking_sorted (values : list string) :
  StronglySorted (fun x y => (snd y <= snd x)%nat)
    (stable_sort by_count_desc (tally values)).
Proof.
  apply StronglySorted_impl_In with (R := fun x y => by_count_desc x y = true).
  - intros x y _ _ H. now apply Nat.leb_le.
  - apply Sorted_StronglySorted.
    + intros x y z. unfold by_count_desc. rewrite !Nat.leb_le. lia.
    + apply stable_sort_Sorted. apply by_count_desc_total.
Qed.

(** X1. [value_counts] lists every value present in the column exactly
    once, with the number of cells holding it, never a count of 0, and in
    descending order of the counts. *)
Theorem value_counts_spec (s : list (option string)) :
  List.NoDup (map fst (value_counts s))
  /\ (forall k n, In (k, n) (value_counts s)
                  <-> n = occurrences k (Series.dropna s) /\ (0 < n)%nat)
  /\ StronglySorted (fun x y => (snd y <= snd x)%nat) (value_counts s).
Proof.
  unfold value_counts. split; [apply ranking_NoDup|].
  split; [intros k n; apply ranking_In|apply ranking_sorted].
Qed.

Lemma ranking_nil (values : list string) :
  stable_sort by_count_desc (tally values) = [] <-> values = [].
Proof.
  split; [|now intros ->].
  intros Hnil.
  assert (Hc : total_count (stable_sort by_count_desc (tally values)) = 0%nat)
    by now rewrite Hnil.
  unfold tally in Hc. rewrite total_count_sort, total_count_tally_from in Hc.
  destruct values; [reflexivity|simpl in Hc; lia].
Qed.

Lemma ranking_head (values : list string) (k : string) (n : nat)
    (rest : list (string * nat)) :
  stable_sort by_count_desc (tally values) = (k, n) :: rest ->
  n = occurrences k values /\ (0 < n)%nat
  /\ forall k', (occurrences k' values <= n)%nat.
Proof.
  intros Heq.
  assert (Hin : In (k, n) (stable_sort by_count_desc (tally values)))
    by (rewrite Heq; now left).
  apply ranking_In in Hin as [Hn Hpos]. split; [exact Hn|]. split; [exact Hpos|].
  intros k'. destruct (occurrences k' values) as [|m] eqn:Hm; [lia|].
  assert (Hin' : In (k', S m) (stable_sort by_count_desc (tally values)))
    by (apply ranking_In; split; [now symmetry|lia]).
  pose proof (ranking_sorted values) as Hs. rewrite Heq in Hs, Hin'.
  destruct Hin' as [Hhd|Htl]; [injection Hhd as _ <-; lia|].
  apply StronglySorted_inv in Hs as [_ Hall].
  rewrite List.Forall_forall in Hall. exact (Hall _ Htl).
Qed.

Lemma dropna_nil {A} (col : row -> option A) (df : frame) :
  Series.dropna (map col df) = [] <-> no_value col df.
Proof.
  unfold Series.dropna, no_value. induction df as [|r df IH].
  - split; [constructor|reflexivity].
  - cbn [map omap list_omap]. destruct (col r) as [v|] eqn:Hc; cbn [id].
    + split; [discriminate|]. intros H. inversion H; congruence.
    + rewrite IH. split; [now constructor|]. intros H. now inversion H.
Qed.

(** ** The insights of the overview tab *)

Lemma first_entry (dist : list (string * nat)) :
  (top <~ first_of (map fst dist) ;; n <~ first_of (map snd dist) ;; Ok (top, n))
  = match dist with
    | [] => Raise IndexError
    | kn :: _ => Ok kn
    end.
Proof. destruct dist as [|[k n] dist]; reflexivity. Qed.

Lemma first_entry_raises (col : row -> option string) (df : frame) :
  match value_counts (map col df) with
  | [] => Raise IndexError
  | kn :: _ => Ok kn
  end = Raise IndexError <-> no_value col df.
Proof.
  rewrite <- dropna_nil. unfold value_counts. rewrite <- ranking_nil.
  destruct (stable_sort by_count_desc (tally (Series.dropna (map col df))));
    split; congruence.
Qed.

Lemma first_entry_most_frequent (col : row -> option string) (df : frame)
    (k : string) (n : nat) :
  match value_counts (map col df) with
  | [] => Raise IndexError
  | kn :: _ => Ok kn
  end = Ok (k, n) ->
  n = occurrences k (Series.dropna (map col df)) /\ (0 < n)%nat
  /\ forall k', (occurrences k' (Series.dropna (map col df)) <= n)%nat.
Proof.
  unfold value_counts.
  destruct (stable_sort by_count_desc (tally (Series.dropna (map col df))))
    as [|kn rest] eqn:Heq; [discriminate|].
  intros H. injection H as ->. now apply ranking_head in Heq.
Qed.

(** X2. Reading the first entry of the claim-type distribution raises
    [IndexError] exactly when no row of the filtered subset has a claim
    type, and reading the first entry of the race distribution exactly when
    no row has a race: an empty subset, but also a subset whose race codes
    are all outside the loader's mapping. *)
Theorem first_entry_raises_without_values (df : frame) :
  (claim_type_insight df = Raise IndexError <-> no_value ClaimType df)
  /\ (race_insight df = Raise IndexError <-> no_value Race df).
Proof.
  unfold claim_type_insight, race_insight. rewrite !first_entry.
  split; apply first_entry_raises.
Qed.

(** X3. When they return, the two insights report a most frequent category
    of their column together with the number of rows that hold it. *)
Theorem insights_report_most_frequent (df : frame) (k : string) (n : nat) :
  (claim_type_insight df = Ok (k, n) ->
   n = occurrences k (Series.dropna (map ClaimType df)) /\ (0 < n)%nat
   /\ forall k', (occurrences k' (Series.dropna (map ClaimType df)) <= n)%nat)
  /\ (race_insight df = Ok (k, n) ->
      n = occurrences k (Series.dropna (map Race df)) /\ (0 < n)%nat
      /\ forall k', (occurrences k' (Series.dropna (map Race df)) <= n)%nat).
Proof.
  unfold claim_type_insight, race_insight. rewrite !first_entry.
  split; apply first_entry_most_frequent.
Qed.

Lemma value_counts_get (s : list (option string)) (k : string) :
  get_count k (value_counts s) = occurrences k (Series.dropna s).
Proof.
  unfold value_counts.
  destruct (occurrences k (Series.dropna s)) as [|m] eqn:Hm.
  - apply get_count_absent. intros Hin.
    apply in_map_iff in Hin as ([k' n] & Hk & Hin). simpl in Hk. subst k'.
    apply ranking_In in Hin. lia.
  - apply get_count_In; [apply ranking_NoDup|].
    apply ranking_In. split; [now symmetry|lia].
Qed.

Lemma percentage_bounds (a b : nat) :
  (a <= b)%nat -> (0 < b)%nat ->
  (0 <= Stat.of_nat a / Stat.of_nat b * 100
   /\ Stat.of_nat a / Stat.of_nat b * 100 <= 100)%Q.
Proof.
  intros Hab Hb. unfold Stat.of_nat.
  assert (Hb' : (0 < inject_Z (Z.of_nat b))%Q).
  { change 0%Q with (inject_Z 0). rewrite <- Zlt_Qlt. lia. }
  assert (Ha : (0 <= inject_Z (Z.of_nat a))%Q).
  { change 0%Q with (inject_Z 0). rewrite <- Zle_Qle. lia. }
  assert (Hab' : (inject_Z (Z.of_nat a) <= inject_Z (Z.of_nat b))%Q).
  { rewrite <- Zle_Qle. lia. }
  split.
  - apply Qmult_le_0_compat; [|discriminate].
    apply Qle_shift_div_l; [exact Hb'|]. now rewrite Qmult_0_l.
  - apply Qle_trans with (1 * 100)%Q; [|discriminate].
    apply Qmult_le_compat_r; [|discriminate].
    apply Qle_shift_div_r; [exact Hb'|]. now rewrite Qmult_1_l.
Qed.

(** X4. The male share of the gender insight is the number of rows with
    gender "Male" over the number of rows whose gender is present, times
    100; it is 0 when no gender is present and always lies between 0 and
    100. *)
Theorem gender_ratio_spec (df : frame) :
  (gender_insight df
   == if (0 <? Stat.count (map Gender df))%nat
      then Stat.of_nat (occurrences "Male" (Series.dropna (map Gender df)))
           / Stat.of_nat (Stat.count (map Gender df)) * 100
      else 0)%Q
  /\ (0 <= gender_insight df)%Q /\ (gender_insight df <= 100)%Q.
Proof.
  unfold gender_insight. rewrite value_counts_total, value_counts_get.
  split; [reflexivity|].
  destruct (0 <? Stat.count (map Gender df))%nat eqn:Hpos;
    [|split; discriminate].
  apply Nat.ltb_lt in Hpos. apply percentage_bounds; [|exact Hpos].
  apply count_occ_bound.
Qed.

(** ** The data summary and the run of [main] *)

Lemma fold_min_in (xs : list Z) (x : Z) : In (fold_left Z.min xs x) (x :: xs).
Proof.
  revert x. induction xs as [|y xs IH]; intros x; [now left|].
  cbn [fold_left]. destruct (IH (Z.min x y)) as [H|H].
  - rewrite <- H. destruct (Z.min_spec x y) as [[_ ->]|[_ ->]];
      [now left|right; now left].
  - right. now right.
Qed.

Lemma fold_max_in (xs : list Z) (x : Z) : In (fold_left Z.max xs x) (x :: xs).
Proof.
  revert x. induction xs as [|y xs IH]; intros x; [now left|].
  cbn [fold_left]. destruct (IH (Z.max x y)) as [H|H].
  - rewrite <- H. destruct (Z.max_spec x y) as [[_ ->]|[_ ->]];
      [right; now left|now left].
  - right. now right.
Qed.

Lemma series_min_in (s : list (option Z)) (lo : Z) :
  Stat.min s = Some lo -> In (Some lo) s.
Proof.
  unfold Stat.min. destruct (Series.dropna s) as [|x xs] eqn:Hd; [discriminate|].
  intros H. injection H as <-. apply dropna_In. rewrite Hd. apply fold_min_in.
Qed.

Lemma series_max_in (s : list (option Z)) (hi : Z) :
  Stat.max s = Some hi -> In (Some hi) s.
Proof.
  unfold Stat.max. destruct (Series.dropna s) as [|x xs] eqn:Hd; [discriminate|].
  intros H. injection H as <-. apply dropna_In. rewrite Hd. apply fold_max_in.
Qed.

Lemma series_min_none (s : list (option Z)) :
  Stat.min s = None <-> Series.dropna s = [].
Proof. unfold Stat.min. destruct (Series.dropna s); split; congruence. Qed.

Lemma series_max_none (s : list (option Z)) :
  Stat.max s = None <-> Series.dropna s = [].
Proof. unfold Stat.max. destruct (Series.dropna s); split; congruence. Qed.

Lemma min_date_none (df : frame) : min_date df = None <-> no_value AttendingDate df.
Proof.
  unfold min_date. rewrite series_min_none. apply (dropna_nil AttendingDate).
Qed.

Lemma max_date_none (df : frame) : max_date df = None <-> no_value AttendingDate df.
Proof.
  unfold max_date. rewrite series_max_none. apply (dropna_nil AttendingDate).
Qed.

Lemma sidebar_summary_raises (df : frame) :
  sidebar_summary df = Raise ValueError <-> no_value AttendingDate df.
Proof.
  unfold sidebar_summary. split.
  - intros H. apply min_date_none.
    destruct (min_date df) as [lo|] eqn:Hlo; [|reflexivity].
    destruct (max_date df) as [hi|] eqn:Hhi; [discriminate|].
    apply max_date_none, min_date_none in Hhi. congruence.
  - intros H. apply min_date_none in H. now rewrite H.
Qed.


(** X5. The data summary of the sidebar raises [ValueError] exactly when no
    row of the filtered subset has an attending date; otherwise it reports
    the number of rows and two attending dates of the subset that bound all
    the others. *)
Theorem sidebar_summary_spec (df : frame) :
  (sidebar_summary df = Raise ValueError <-> no_value AttendingDate df)
  /\ (forall n lo hi, sidebar_summary df = Ok (n, lo, hi) ->
        n = length df
        /\ In (Some lo) (map AttendingDate df)
        /\ In (Some hi) (map AttendingDate df)
        /\ forall d, In (Some d) (map AttendingDate df) -> lo <= d <= hi).
Proof.
  split; [apply sidebar_summary_raises|].
  unfold sidebar_summary. intros n lo hi.
  destruct (min_date df) as [lo'|] eqn:Hlo; [|discriminate].
  destruct (max_date df) as [hi'|] eqn:Hhi; [|discriminate].
  cbn [strftime bind]. intros H. injection H as <- <- <-.
  split; [reflexivity|].
  split; [now apply series_min_in|].
  split; [now apply series_max_in|].
  intros d Hd. split.
  - now apply (series_min_le _ _ _ Hlo).
  - now apply (series_max_ge _ _ _ Hhi).
Qed.



(** ** The filter pipeline *)

Lemma filter_true {A} (l : list A) : List.filter (fun _ => true) l = l.
Proof. induction l as [|x l IH]; simpl; [reflexivity|now rewrite IH]. Qed.

Lemma filter_filter_andb {A} (p q : A -> bool) (l : list A) :
  List.filter p (List.filter q l) = List.filter (fun x => q x && p x) l.
Proof.
  induction l as [|x l IH]; [reflexivity|].
  simpl. destruct (q x); simpl; [destruct (p x)|]; now rewrite IH.
Qed.

Lemma filter_sublist {A} (p : A -> bool) (l : list A) :
  sublist (List.filter p l) l.
Proof.
  induction l as [|x l IH]; simpl; [constructor|].
  destruct (p x); now constructor.
Qed.

Lemma row_filter_id : row_filter (fun df => df).
Proof. exists (fun _ => true). intros df. now rewrite filter_true. Qed.

Lemma row_filter_compose (f g : frame -> frame) :
  row_filter f -> row_filter g -> row_filter (fun df => f (g df)).
Proof.
  intros [p Hp] [q Hq]. exists (fun r => q r && p r). intros df.
  now rewrite Hp, Hq, filter_filter_andb.
Qed.

Lemma date_filter_row_filter (date_range : list timestamp) :
  row_filter (date_filter date_range).
Proof.
  destruct date_range as [|a [|b [|c rest]]];
    try apply row_filter_id.
  eexists. intros df. reflexivity.
Qed.

Lemma provider_filter_row_filter (selected_provider : string) :
  row_filter (provider_filter selected_provider).
Proof.
  unfold provider_filter.
  destruct (bool_decide (selected_provider <> "All Providers"%string));
    [eexists; intros df; reflexivity|apply row_filter_id].
Qed.

Lemma fraud_status_filter_row_filter (fraud_status : list string) :
  row_filter (fraud_status_filter fraud_status).
Proof.
  unfold fraud_status_filter.
  destruct (bool_decide ("All Claims"%string ∉ fraud_status));
    [eexists; intros df; reflexivity|apply row_filter_id].
Qed.

Lemma claim_type_filter_row_filter (claim_types : list (option string)) :
  row_filter (claim_type_filter claim_types).
Proof.
  destruct claim_types as [|c cs]; [apply row_filter_id|].
  eexists. intros df. reflexivity.
Qed.

(** X7. The filter pipeline only removes rows: its result is a sublist of
    the loaded frame, in the same order.  It keeps exactly the rows that each
    of the four filters keeps on its own, so the filters act independently,
    and applying the same selection to the result changes nothing. *)
Theorem apply_filters_spec (date_range : list timestamp)
    (selected_provider : string) (fraud_status : list string)
    (claim_types : list (option string)) (df : frame) :
  sublist (apply_filters date_range selected_provider fraud_status claim_types df) df
  /\ (forall r,
        In r (apply_filters date_range selected_provider fraud_status claim_types df)
        <-> In r (date_filter date_range df)
            /\ In r (provider_filter selected_provider df)
            /\ In r (fraud_status_filter fraud_status df)
            /\ In r (claim_type_filter claim_types df))
  /\ apply_filters date_range selected_provider fraud_status claim_types
       (apply_filters date_range selected_provider fraud_status claim_types df)
     = apply_filters date_range selected_provider fraud_status claim_types df.
Proof.
  unfold apply_filters.
  destruct (date_filter_row_filter date_range) as [kd Hd].
  destruct (provider_filter_row_filter selected_provider) as [kp Hp].
  destruct (fraud_status_filter_row_filter fraud_status) as [kf Hf].
  destruct (claim_type_filter_row_filter claim_types) as [kc Hc].
  rewrite !Hc, !Hf, !Hp, !Hd. rewrite !filter_filter_andb.
  split; [apply filter_sublist|]. split.
  - intros r. rewrite !List.filter_In, !andb_true_iff. tauto.
  - apply List.filter_ext. intros r.
    destruct (kd r), (kp r), (kf r), (kc r); reflexivity.
Qed.

Lemma fraud_mapping_lookup (label flag : string) :
  fraud_mapping !! label = Some flag
  <-> (label = "Potential Fraud"%string /\ flag = "Yes"%string)
      \/ (label = "No Fraud"%string /\ flag = "No"%string).
Proof.
  unfold fraud_mapping.
  destruct (decide (label = "Potential Fraud"%string)) as [->|H1].
  - rewrite lookup_insert_eq. split.
    + intros H. injection H as <-. now left.
    + intros [[_ ->]|[H _]]; [reflexivity|discriminate].
  - rewrite lookup_insert_ne by congruence.
    destruct (decide (label = "No Fraud"%string)) as [->|H2].
    + rewrite lookup_insert_eq. split.
      * intros H. injection H as <-. now right.
      * intros [[H _]|[_ ->]]; [discriminate|reflexivity].
    + rewrite lookup_insert_ne by congruence. rewrite lookup_empty.
      split; [discriminate|]. intros [[H _]|[H _]]; congruence.
Qed.

(** X8. A fraud-status selection that contains "All Claims" keeps every
    row.  Any other selection keeps exactly the rows flagged "Yes" when
    "Potential Fraud" is selected and the rows flagged "No" when "No Fraud"
    is selected; unknown labels select nothing and rows with any other or a
    missing flag are always dropped. *)
Theorem fraud_status_filter_spec (fraud_status : list string) (df : frame) :
  (In "All Claims"%string fraud_status -> fraud_status_filter fraud_status df = df)
  /\ (~ In "All Claims"%string fraud_status ->
      forall r, In r (fraud_status_filter fraud_status df)
                <-> In r df
                    /\ ((In "Potential Fraud"%string fraud_status
                         /\ PotentialFraud r = Some "Yes"%string)
                        \/ (In "No Fraud"%string fraud_status
                            /\ PotentialFraud r = Some "No"%string))).
Proof.
  unfold fraud_status_filter. split.
  - intros Hall. rewrite bool_decide_eq_false_2; [reflexivity|].
    intros Hn. apply Hn. now apply list_elem_of_In.
  - intros Hnot r. rewrite bool_decide_eq_true_2
      by (intros H; apply Hnot; now apply list_elem_of_In).
    rewrite List.filter_In. unfold Stat.isin. rewrite bool_decide_eq_true.
    change (map Some) with (@fmap list _ string (option string) Some).
    rewrite list_elem_of_fmap.
    split; intros [Hr Hsel]; (split; [exact Hr|]).
    + destruct Hsel as (flag & Hflag & Hin).
      apply list_elem_of_omap in Hin as (label & Hlabel & Hmap).
      apply list_elem_of_In in Hlabel.
      apply fraud_mapping_lookup in Hmap as [[-> ->]|[-> ->]]; auto.
    + destruct Hsel as [[Hin Hflag]|[Hin Hflag]].
      * exists "Yes"%string. split; [exact Hflag|].
        apply list_elem_of_omap. exists "Potential Fraud"%string.
        split; [now apply list_elem_of_In|reflexivity].
      * exists "No"%string. split; [exact Hflag|].
        apply list_elem_of_omap. exists "No Fraud"%string.
        split; [now apply list_elem_of_In|reflexivity].
Qed.

(** ** The loader keeps the lines of the file *)


(** ** The medical tab *)

Lemma firstn_tail_dominated {A} (R : A -> A -> Prop) (n : nat) (l : list A)
    (x y : A) :
  StronglySorted R l -> In x (firstn n l) -> In y (skipn n l) -> R x y.
Proof.
  intros Hs Hx Hy. rewrite <- (firstn_skipn n l) in Hs.
  apply (StronglySorted_app_1_elem_of R _ _ x y Hs); now apply list_elem_of_In.
Qed.

Lemma firstn_sorted {A} (R : A -> A -> Prop) (n : nat) (l : list A) :
  StronglySorted R l -> StronglySorted R (firstn n l).
Proof.
  intros Hs. rewrite <- (firstn_skipn n l) in Hs.
  now apply StronglySorted_app_1_l in Hs.
Qed.

(** X10. The condition ranking holds at most ten conditions, each with its
    number of occurrences in the loader's flat list, in descending order of
    the counts; a condition that is left out occurs no more often than any
    condition listed.  The insight reads "N/A" and 0 on an empty list and
    otherwise a most frequent condition with its count. *)
Theorem top_conditions_spec (all_conditions : list string) :
  (length (top_conditions all_conditions) <= 10)%nat
  /\ (forall c n, In (c, n) (top_conditions all_conditions) ->
        n = occurrences c all_conditions /\ (0 < n)%nat)
  /\ StronglySorted (fun x y => (snd y <= snd x)%nat)
       (top_conditions all_conditions)
  /\ (forall c n c', In (c, n) (top_conditions all_conditions) ->
        ~ In c' (map fst (top_conditions all_conditions)) ->
        (occurrences c' all_conditions <= n)%nat)
  /\ (all_conditions = [] ->
      common_condition_insight all_conditions = ("N/A"%string, 0%nat))
  /\ (forall c n, all_conditions <> [] ->
        common_condition_insight all_conditions = (c, n) ->
        n = occurrences c all_conditions /\ (0 < n)%nat
        /\ forall c', (occurrences c' all_conditions <= n)%nat).
Proof.
  unfold common_condition_insight, top_conditions.
  set (ranking := stable_sort by_count_desc (tally all_conditions)).
  pose proof (ranking_sorted all_conditions) as Hs. fold ranking in Hs.
  split; [apply firstn_le_length|].
  split.
  { intros c n Hin. apply firstn_In_inv in Hin. now apply ranking_In. }
  split; [now apply firstn_sorted|].
  split.
  { intros c n c' Hin Hout.
    destruct (occurrences c' all_conditions) as [|m] eqn:Hm; [lia|].
    assert (Hin' : In (c', S m) ranking)
      by (apply ranking_In; split; [now symmetry|lia]).
    rewrite <- (firstn_skipn 10 ranking) in Hin'.
    apply in_app_or in Hin' as [Hl|Hr].
    - exfalso. apply Hout. apply in_map_iff. now exists (c', S m).
    - exact (firstn_tail_dominated _ 10 ranking (c, n) (c', S m) Hs Hin Hr). }
  split.
  { intros ->. reflexivity. }
  intros c n Hne.
  destruct ranking as [|[c0 n0] rest] eqn:Hr.
  { apply ranking_nil in Hr. congruence. }
  cbn [firstn]. intros H. injection H as -> ->.
  now apply ranking_head in Hr.
Qed.






Lemma qsum_yes_flags (flags : list (option string)) :
  (Stat.qsum (map (fun c => if Stat.eq_str c "Yes" then 1%Q else 0%Q) flags)
   == Stat.of_nat (yes_count flags))%Q.
Proof.
  unfold yes_count. induction flags as [|c flags IH]; [reflexivity|].
  cbn [map Stat.qsum foldr List.filter].
  fold (Stat.qsum (map (fun c => if Stat.eq_str c "Yes" then 1%Q else 0%Q) flags)).
  destruct (Stat.eq_str c "Yes").
  - cbn [length]. now rewrite of_nat_S, IH.
  - now rewrite IH, Qplus_0_l.
Qed.

Lemma yes_count_le (flags : list (option string)) :
  (yes_count flags <= length flags)%nat.
Proof. unfold yes_count. apply List.filter_length_le. Qed.

(** The rate of a non-empty series of flags. *)
Lemma yes_rate_flags (flags : list (option string)) :
  flags <> [] ->
  exists v, yes_rate flags = Some v
            /\ (v == Stat.of_nat (yes_count flags)
                     / Stat.of_nat (length flags) * 100)%Q.
Proof.
  intros Hne. unfold yes_rate, Stat.bool_mean, Stat.mean.
  rewrite map_map.
  rewrite (dropna_map_Some
             (fun c => if Stat.eq_str c "Yes" then 1%Q else 0%Q) flags).
  destruct flags as [|c flags]; [congruence|].
  pose proof (qsum_yes_flags (c :: flags)) as Hsum.
  cbn [map] in *. cbn [option_map].
  eexists. split; [reflexivity|].
  rewrite Hsum. cbn [length]. now rewrite length_map.
Qed.

Lemma condition_rows_nonempty (cd : list condition_row) (k : string) :
  In k (map Condition cd) -> condition_rows k cd <> [].
Proof.
  intros Hin. apply in_map_iff in Hin as (c & Hk & Hc).
  assert (Hf : In c (condition_rows k cd)).
  { apply List.filter_In. split; [exact Hc|]. now apply String.eqb_eq. }
  intros Hnil. now rewrite Hnil in Hf.
Qed.

Lemma by_rate_desc_total (x y : string * option Q) :
  by_rate_desc x y = false -> by_rate_desc y x = true.
Proof. unfold by_rate_desc. apply desc_total. Qed.

(** X12. The ranking of conditions by fraud rate lists at most 15
    conditions that occur in [condition_data], each with the share of its
    occurrences whose claim is flagged "Yes", times 100, a number between 0
    and 100, in descending order of that rate. *)
Theorem condition_fraud_rate_spec (cd : list condition_row) :
  (length (condition_fraud_rate cd) <= 15)%nat
  /\ (forall k q, In (k, q) (condition_fraud_rate cd) ->
        In k (map Condition cd)
        /\ exists v, q = Some v
             /\ (v == Stat.of_nat
                        (yes_count (map cond_PotentialFraud (condition_rows k cd)))
                      / Stat.of_nat (length (condition_rows k cd)) * 100)%Q
             /\ (0 <= v)%Q /\ (v <= 100)%Q)
  /\ StronglySorted (fun x y => desc (snd x) (snd y) = true)
       (condition_fraud_rate cd).
Proof.
  unfold condition_fraud_rate.
  split; [apply firstn_le_length|]. split.
  - intros k q Hin. apply firstn_In_inv, stable_sort_In in Hin.
    apply in_map_iff in Hin as (k' & Heq & Hk). injection Heq as -> <-.
    apply stable_sort_In in Hk. apply (proj1 (unique_In _ _)) in Hk.
    split; [exact Hk|].
    fold (condition_rows k cd).
    destruct (yes_rate_flags (map cond_PotentialFraud (condition_rows k cd)))
      as (v & Hv & Hve).
    { intros Hnil. apply map_eq_nil in Hnil.
      now apply (condition_rows_nonempty cd k). }
    exists v. split; [exact Hv|].
    rewrite length_map in Hve. split; [exact Hve|].
    assert (Hb : (0 <= Stat.of_nat
                         (yes_count (map cond_PotentialFraud (condition_rows k cd)))
                       / Stat.of_nat (length (condition_rows k cd)) * 100
                  /\ Stat.of_nat
                       (yes_count (map cond_PotentialFraud (condition_rows k cd)))
                     / Stat.of_nat (length (condition_rows k cd)) * 100 <= 100)%Q).
    { apply percentage_bounds.
      - rewrite <- (length_map cond_PotentialFraud). apply yes_count_le.
      - destruct (condition_rows k cd) eqn:Hrows; [|simpl; lia].
        exfalso. now apply (condition_rows_nonempty cd k). }
    rewrite Hve. exact Hb.
  - apply firstn_sorted. apply Sorted_StronglySorted.
    + intros x y z. apply desc_trans.
    + apply (stable_sort_Sorted by_rate_desc). apply by_rate_desc_total.
Qed.

(** ** Grouping *)

Lemma unique_NoDup (l : list string) : List.NoDup (unique l).
Proof.
  induction l as [|x l IH]; simpl; constructor.
  - intros Hin. apply List.filter_In in Hin as [_ Hne].
    now rewrite String.eqb_refl in Hne.
  - now apply List.NoDup_filter.
Qed.

Lemma group_keys_NoDup (s : list (option string)) :
  List.NoDup (stable_sort String.leb (unique (Series.dropna s))).
Proof.
  apply (Permutation_NoDup (l := unique (Series.dropna s))).
  - symmetry. apply stable_sort_perm.
  - apply unique_NoDup.
Qed.

Lemma list_sum_zero {A} (l : list A) : list_sum (map (fun _ => 0%nat) l) = 0%nat.
Proof. induction l; simpl; auto. Qed.

Lemma list_sum_plus {A} (f g : A -> nat) (l : list A) :
  list_sum (map (fun x => (f x + g x)%nat) l)
  = (list_sum (map f l) + list_sum (map g l))%nat.
Proof. induction l as [|x l IH]; simpl; [reflexivity|rewrite IH; lia]. Qed.

Lemma list_sum_cons (x : nat) (l : list nat) :
  list_sum (x :: l) = (x + list_sum l)%nat.
Proof. reflexivity. Qed.

Lemma indicator_sum (c : option string) (ks : list string) :
  List.NoDup ks ->
  list_sum (map (fun k => if Stat.eq_str c k then 1%nat else 0%nat) ks)
  = match c with
    | Some k0 => if in_dec string_dec k0 ks then 1%nat else 0%nat
    | None => 0%nat
    end.
Proof.
  unfold Stat.eq_str. induction 1 as [|k ks Hnotin Hnd IH].
  - destruct c; reflexivity.
  - cbn [map]. rewrite list_sum_cons, IH. destruct c as [k0|].
    + destruct (decide (k0 = k)) as [->|Hne].
      * rewrite bool_decide_eq_true_2 by reflexivity.
        destruct (in_dec string_dec k ks) as [Hin|_]; [contradiction|].
        destruct (in_dec string_dec k (k :: ks)) as [_|Hout]; [reflexivity|].
        exfalso. apply Hout. now left.
      * rewrite bool_decide_eq_false_2 by congruence.
        destruct (in_dec string_dec k0 ks) as [Hin|Hout];
          destruct (in_dec string_dec k0 (k :: ks)) as [Hin'|Hout'];
          try reflexivity.
        -- exfalso. apply Hout'. now right.
        -- exfalso. destruct Hin' as [Heq|Hin']; [congruence|contradiction].
    + now rewrite bool_decide_eq_false_2 by discriminate.
Qed.

Lemma group_sizes_sum (key : row -> option string) (ks : list string)
    (df : frame) :
  List.NoDup ks ->
  (forall k, In (Some k) (map key df) -> In k ks) ->
  list_sum (map (fun k => length (List.filter (fun r => Stat.eq_str (key r) k) df)) ks)
  = Stat.count (map key df).
Proof.
  intros Hnd. unfold Stat.count, Series.dropna.
  induction df as [|r df IH]; intros Hks.
  - apply list_sum_zero.
  - erewrite map_ext.
    2:{ intros k. cbn [List.filter].
        instantiate (1 := fun k =>
          ((if Stat.eq_str (key r) k then 1 else 0)
           + length (List.filter (fun r => Stat.eq_str (key r) k) df))%nat).
        cbv beta. now destruct (Stat.eq_str (key r) k). }
    rewrite list_sum_plus, IH by (intros k Hk; apply Hks; now right).
    rewrite indicator_sum by exact Hnd.
    cbn [map omap list_omap]. destruct (key r) as [k0|] eqn:Hk; cbn [id].
    + destruct (in_dec string_dec k0 ks) as [_|Hout]; [reflexivity|].
      exfalso. apply Hout, Hks. left. exact Hk.
    + reflexivity.
Qed.

(** X13. [groupby] partitions the rows that have a key: the group keys are
    distinct and in ascending order, every group is non-empty and holds, in
    frame order, exactly the rows with its key, and the group sizes add up
    to the number of rows whose key is present. *)
Theorem groupby_partition (key : row -> option string) (df : frame) :
  List.NoDup (map fst (groupby key df))
  /\ Sorted (fun a b => String.leb a b = true) (map fst (groupby key df))
  /\ (forall k g, In (k, g) (groupby key df) ->
        g <> [] /\ g = List.filter (fun r => Stat.eq_str (key r) k) df)
  /\ (forall r k, In r df -> key r = Some k ->
        exists g, In (k, g) (groupby key df) /\ In r g)
  /\ list_sum (map (fun kg => length (snd kg)) (groupby key df))
     = Stat.count (map key df).
Proof.
  assert (Hkeys : map fst (groupby key df)
                  = stable_sort String.leb (unique (Series.dropna (map key df)))).
  { unfold groupby. rewrite map_map. cbn [fst]. apply map_id. }
  split; [rewrite Hkeys; apply group_keys_NoDup|].
  split.
  { rewrite Hkeys. apply stable_sort_Sorted. intros x y Hxy.
    destruct (String.leb_total x y) as [H|H]; [congruence|exact H]. }
  split.
  { intros k g Hin. apply groupby_In in Hin as [Hin ->].
    split; [now apply group_nonempty|reflexivity]. }
  split.
  { intros r k Hr Hk.
    exists (List.filter (fun r => Stat.eq_str (key r) k) df). split.
    - apply groupby_In. split; [|reflexivity]. rewrite <- Hk. now apply in_map.
    - apply List.filter_In. split; [exact Hr|].
      unfold Stat.eq_str. now apply bool_decide_eq_true_2. }
  unfold groupby. rewrite map_map. cbn [snd].
  apply group_sizes_sum; [apply group_keys_NoDup|].
  intros k Hk. now apply stable_sort_In, unique_In, dropna_In.
Qed.

(** ** More on the provider panel *)

Lemma inject_Z_half_nonneg (z : Z) : (- (1 # 2) <= inject_Z z)%Q -> 0 <= z.
Proof. unfold Qle, inject_Z. simpl. lia. Qed.

Lemma inject_Z_half_bound (z k : Z) :
  (inject_Z z <= inject_Z k + (1 # 2))%Q -> z <= k.
Proof. unfold Qle, Qplus, inject_Z. simpl. lia. Qed.

(** Rounding to two decimals keeps a percentage a percentage. *)
Lemma round2_percentage (q : Q) :
  (0 <= q)%Q -> (q <= 100)%Q ->
  (0 <= Stat.round2 q)%Q /\ (Stat.round2 q <= 100)%Q.
Proof.
  intros H0 H100. unfold Stat.round2.
  destruct (rint_nearest (q * 100)) as [Hlo Hhi].
  assert (Hz0 : 0 <= Stat.rint (q * 100)).
  { apply inject_Z_half_nonneg. lra. }
  assert (Hz1 : Stat.rint (q * 100) <= 10000).
  { apply inject_Z_half_bound. change (inject_Z 10000) with 10000%Q. lra. }
  rewrite Zle_Qle in Hz0, Hz1.
  change (inject_Z 0) with 0%Q in Hz0.
  change (inject_Z 10000) with 10000%Q in Hz1.
  split.
  - apply Qle_shift_div_l; [reflexivity|]. lra.
  - apply Qle_shift_div_r; [reflexivity|]. lra.
Qed.

Lemma provider_stats_keys (df : frame) :
  Permutation (map stat_Provider (provider_stats df))
    (map fst (groupby Provider df)).
Proof.
  unfold provider_stats.
  rewrite (Permutation_map stat_Provider (stable_sort_perm by_fraud_rate_desc _)).
  rewrite map_map. reflexivity.
Qed.

(** X14. The provider panel has one row per provider of the filtered
    subset; every listed rate lies between 0 and 100 after rounding; the
    claim count of a row is at most the number of rows of its provider; at
    most 15 rows are shown and no row left out has a higher rate than a row
    shown. *)
Theorem provider_panel_shape (df : frame) :
  List.NoDup (map stat_Provider (provider_stats df))
  /\ length (provider_stats df)
     = length (unique (Series.dropna (map Provider df)))
  /\ (forall s, In s (provider_stats df) ->
        (exists q, Fraud_Rate_pct s = Some q /\ (0 <= q)%Q /\ (q <= 100)%Q)
        /\ (Claim_Count s <= length (provider_rows (stat_Provider s) df))%nat)
  /\ (length (styled_df df) <= 15)%nat
  /\ (forall s s', In s (firstn 15 (provider_stats df)) ->
        In s' (skipn 15 (provider_stats df)) -> rate_ge s s').
Proof.
  split.
  { apply (Permutation_NoDup (l := map fst (groupby Provider df))).
    - symmetry. apply provider_stats_keys.
    - unfold groupby. rewrite map_map. cbn [fst]. rewrite map_id.
      apply group_keys_NoDup. }
  split.
  { rewrite <- (length_map stat_Provider).
    rewrite (Permutation_length (provider_stats_keys df)).
    unfold groupby. rewrite !length_map.
    apply Permutation_length, stable_sort_perm. }
  split.
  { intros s Hin. apply provider_stats_In in Hin as [Hin Hs]. split.
    - destruct (yes_rate_flags
                  (map PotentialFraud (provider_rows (stat_Provider s) df)))
        as (v & Hv & Hve).
      { intros Hnil. apply map_eq_nil in Hnil.
        now apply (group_nonempty Provider df (stat_Provider s)). }
      exists (Stat.round2 v). split.
      + rewrite Hs. cbn [Fraud_Rate_pct aggregate_provider snd]. now rewrite Hv.
      + apply round2_percentage; rewrite Hve; apply percentage_bounds;
          try apply yes_count_le;
          rewrite length_map;
          (destruct (provider_rows (stat_Provider s) df) eqn:Hrows;
           [exfalso; now apply (group_nonempty Provider df (stat_Provider s))
           |simpl; lia]).
    - rewrite Hs at 1. cbn [Claim_Count aggregate_provider snd].
      unfold Stat.count.
      rewrite (dropna_filter_length InscClaimAmtReimbursed).
      rewrite <- (filter_bool_decide
                    (fun r => is_Some (InscClaimAmtReimbursed r))).
      apply List.filter_length_le. }
  split.
  { unfold styled_df. rewrite length_map. apply firstn_le_length. }
  intros s s'. apply firstn_tail_dominated, provider_stats_sorted.
Qed.

(** ** Indicators *)

(** X15. The fraud count never exceeds the number of claims and the fraud
    percentage always lies between 0 and 100. *)
Theorem fraud_indicator_bounds (df : frame) :
  (fraud_count df <= total_claims df)%nat
  /\ (0 <= fraud_percentage df)%Q /\ (fraud_percentage df <= 100)%Q.
Proof.
  split; [apply fraud_count_le_total|apply fraud_percentage_bounds].
Qed.

(** ** The tokens of the loader *)

Lemma list_ascii_app (a b : string) :
  list_ascii_of_string (a ++ b)
  = list_ascii_of_string a ++ list_ascii_of_string b.
Proof.
  induction a as [|c a IH]; [reflexivity|].
  change (c :: list_ascii_of_string (a ++ b)%string
          = c :: (list_ascii_of_string a ++ list_ascii_of_string b)).
  now rewrite IH.
Qed.

Lemma strip_chars (s : string) (c : ascii) :
  In c (list_ascii_of_string (PyStr.strip s)) -> In c (list_ascii_of_string s).
Proof.
  destruct (strip_spec s) as (l & r & Hs & _).
  intros Hin. rewrite Hs, !list_ascii_app.
  apply in_or_app. right. apply in_or_app. now left.
Qed.

(** X16. Every token of the loader's flat condition list is free of commas
    and neither starts nor ends with white space. *)
Theorem conditions_are_trimmed_tokens (csv : list raw_row) :
  Forall (fun t => ~ In ","%char (list_ascii_of_string t)
                   /\ PyStr.head_space t = false
                   /\ PyStr.last_space t = false)
    (snd (load_data csv)).
Proof.
  unfold load_data. cbn [snd].
  rewrite extend_conditions_fold, dropna_conditions. cbn [app].
  unfold spec_conditions. apply List.Forall_forall. intros t Hin.
  apply in_concat in Hin as (tokens & Htokens & Ht).
  apply in_map_iff in Htokens as (r & <- & _).
  unfold row_conditions in Ht.
  destruct (raw_ChronicConditionList r) as [s|]; [|contradiction].
  apply in_map_iff in Ht as (t0 & <- & Ht0).
  destruct (strip_spec t0) as (l & r' & _ & _ & _ & Hh & Hl).
  split; [|split; assumption].
  intros Hc. apply strip_chars in Hc.
  pose proof (split_no_sep ","%char s) as Hno.
  rewrite List.Forall_forall in Hno. exact (Hno t0 Ht0 Hc).
Qed.

(** ** Grouping on any key *)

Section GroupFacts.
Context {K : Type} `{EqDecision K}.
Variable before : K -> K -> bool.
Variable key : row -> option K.

Lemma group_keys_In (df : frame) (k : K) :
  In k (group_keys before key df) <-> In (Some k) (map key df).
Proof.
  unfold group_keys. rewrite stable_sort_In, <- dropna_In.
  rewrite <- !list_elem_of_In. apply elem_of_remove_dups.
Qed.

Lemma group_keys_distinct (df : frame) : List.NoDup (group_keys before key df).
Proof.
  unfold group_keys.
  apply (Permutation_NoDup (l := remove_dups (Series.dropna (map key df)))).
  - symmetry. apply stable_sort_perm.
  - apply NoDup_ListNoDup, NoDup_remove_dups.
Qed.

Lemma group_rows_nonempty (df : frame) (k : K) :
  In (Some k) (map key df) -> (0 < length (group_rows key k df))%nat.
Proof.
  intros Hin. apply in_map_iff in Hin as (r & Hk & Hr).
  assert (Hf : In r (group_rows key k df)).
  { apply List.filter_In. split; [exact Hr|]. now apply bool_decide_eq_true_2. }
  destruct (group_rows key k df); [contradiction|simpl; lia].
Qed.

Lemma group_sizes_In (df : frame) (k : K) (n : nat) :
  In (k, n) (group_sizes before key df)
  <-> In (Some k) (map key df) /\ n = length (group_rows key k df).
Proof.
  unfold group_sizes. split.
  - intros Hin. apply in_map_iff in Hin as (k' & Heq & Hin).
    injection Heq as -> <-. split; [now apply group_keys_In|reflexivity].
  - intros [Hin ->]. apply in_map_iff. exists k.
    split; [reflexivity|now apply group_keys_In].
Qed.

Lemma key_indicator_sum (k0 : K) (ks : list K) :
  List.NoDup ks -> In k0 ks ->
  list_sum (map (fun k => if bool_decide (Some k0 = Some k) then 1%nat else 0%nat) ks)
  = 1%nat.
Proof.
  induction 1 as [|k ks Hnotin Hnd IH]; [easy|].
  intros Hin. cbn [map]. rewrite list_sum_cons.
  destruct (decide (k0 = k)) as [->|Hne].
  - rewrite bool_decide_eq_true_2 by reflexivity.
    erewrite map_ext_in; [rewrite list_sum_zero; reflexivity|].
    intros k' Hk'. cbv beta. rewrite bool_decide_eq_false_2; [reflexivity|].
    intros Heq. injection Heq as <-. contradiction.
  - rewrite bool_decide_eq_false_2 by congruence.
    destruct Hin as [Heq|Hin]; [congruence|]. now rewrite IH.
Qed.

Lemma sizes_sum (ks : list K) (df : frame) :
  List.NoDup ks ->
  (forall k, In (Some k) (map key df) -> In k ks) ->
  list_sum (map (fun k => length (group_rows key k df)) ks)
  = Stat.count (map key df).
Proof.
  intros Hnd. unfold Stat.count, Series.dropna, group_rows.
  induction df as [|r df IH]; intros Hks.
  - apply list_sum_zero.
  - erewrite map_ext.
    2:{ intros k. cbn [List.filter].
        instantiate (1 := fun k =>
          ((if bool_decide (key r = Some k) then 1 else 0)
           + length (List.filter (fun r => bool_decide (key r = Some k)) df))%nat).
        cbv beta. now destruct (bool_decide (key r = Some k)). }
    rewrite list_sum_plus, IH by (intros k Hk; apply Hks; now right).
    cbn [map omap list_omap]. destruct (key r) as [k0|] eqn:Hk; cbn [id].
    + rewrite key_indicator_sum; [reflexivity|exact Hnd|].
      apply Hks. left. exact Hk.
    + erewrite map_ext; [rewrite list_sum_zero; reflexivity|].
      intros k. cbv beta. now rewrite bool_decide_eq_false_2 by discriminate.
Qed.

Lemma group_sizes_total (df : frame) :
  list_sum (map snd (group_sizes before key df)) = Stat.count (map key df).
Proof.
  unfold group_sizes. rewrite map_map. cbn [snd].
  apply sizes_sum; [apply group_keys_distinct|].
  intros k. apply group_keys_In.
Qed.
End GroupFacts.

Lemma key2_Some {A B} (c1 : row -> option A) (c2 : row -> option B)
    (r : row) (a : A) (b : B) :
  key2 c1 c2 r = Some (a, b) <-> c1 r = Some a /\ c2 r = Some b.
Proof.
  unfold key2. destruct (c1 r), (c2 r); split;
    first [ intros [H1 H2]; congruence
          | intros H1; split; congruence
          | intros H1; discriminate ].
Qed.

Lemma key2_is_Some {A B} (c1 : row -> option A) (c2 : row -> option B)
    (r : row) :
  is_Some (key2 c1 c2 r) <-> is_Some (c1 r) /\ is_Some (c2 r).
Proof.
  unfold key2. destruct (c1 r) as [a|], (c2 r) as [b|]; split.
  - intros _. split; eauto.
  - intros _. eauto.
  - intros [x Hx]. discriminate.
  - intros [_ [x Hx]]. discriminate.
  - intros [x Hx]. discriminate.
  - intros [[x Hx] _]. discriminate.
  - intros [x Hx]. discriminate.
  - intros [[x Hx] _]. discriminate.
Qed.

(** ** The trend tab *)

(** X17. The yearly table has one line per pair of a year and a fraud flag
    that occurs in the filtered subset; the count of a line is the number of
    rows with that year and that flag, never 0, and the counts add up to the
    number of rows that have both a year and a flag. *)
Theorem claims_over_time_spec (df : frame) :
  List.NoDup (map fst (claims_over_time df))
  /\ (forall y f n, In (y, f, n) (claims_over_time df)
        <-> n = length (filter (fun r => ClaimYear r = Some y
                                         /\ PotentialFraud r = Some f) df)
            /\ (0 < n)%nat)
  /\ list_sum (map snd (claims_over_time df))
     = length (filter (fun r => is_Some (ClaimYear r)
                                /\ is_Some (PotentialFraud r)) df).
Proof.
  assert (Hrows : forall y f,
             length (group_rows (key2 ClaimYear PotentialFraud) (y, f) df)
             = length (filter (fun r => ClaimYear r = Some y
                                        /\ PotentialFraud r = Some f) df)).
  { intros y f. unfold group_rows.
    rewrite <- (filter_bool_decide
                  (fun r => ClaimYear r = Some y /\ PotentialFraud r = Some f)).
    f_equal. apply List.filter_ext. intros r.
    apply bool_decide_ext, key2_Some. }
  unfold claims_over_time. split.
  { unfold group_sizes. rewrite map_map. cbn [fst]. rewrite map_id.
    apply group_keys_distinct. }
  split.
  - intros y f n. rewrite group_sizes_In, Hrows. split.
    + intros [Hin ->]. split; [reflexivity|].
      rewrite <- Hrows. now apply group_rows_nonempty.
    + intros [-> Hpos]. split; [|reflexivity].
      rewrite <- Hrows in Hpos.
      destruct (group_rows (key2 ClaimYear PotentialFraud) (y, f) df)
        as [|r rows] eqn:Hg; [simpl in Hpos; lia|].
      assert (Hr : In r (group_rows (key2 ClaimYear PotentialFraud) (y, f) df))
        by (rewrite Hg; now left).
      apply List.filter_In in Hr as [Hr Hk].
      apply bool_decide_eq_true in Hk. rewrite <- Hk. now apply in_map.
  - rewrite group_sizes_total. unfold Stat.count.
    rewrite (dropna_filter_length (key2 ClaimYear PotentialFraud)).
    f_equal. apply list_filter_iff. intros r. apply key2_is_Some.
Qed.

Lemma year_flag_key (df : frame) (y : Z) (f : string) :
  In (Some (y, f)) (map (key2 ClaimYear PotentialFraud) df)
  <-> exists r, In r df /\ ClaimYear r = Some y /\ PotentialFraud r = Some f.
Proof.
  rewrite in_map_iff. split.
  - intros (r & Hk & Hr). apply key2_Some in Hk. now exists r.
  - intros (r & Hr & Hy & Hf). exists r. split; [|exact Hr].
    apply key2_Some. now split.
Qed.

Lemma year_flag_rows (df : frame) (y : Z) (f : string) :
  length (group_rows (key2 ClaimYear PotentialFraud) (y, f) df)
  = length (filter (fun r => ClaimYear r = Some y /\ PotentialFraud r = Some f) df).
Proof.
  unfold group_rows.
  rewrite <- (filter_bool_decide
                (fun r => ClaimYear r = Some y /\ PotentialFraud r = Some f)).
  f_equal. apply List.filter_ext. intros r. apply bool_decide_ext, key2_Some.
Qed.

Lemma fraud_trend_In (df : frame) (y : Z) (f : string) (n : nat) :
  In (y, f, n)
     (List.filter (fun e => String.eqb (snd (fst e)) "Yes") (claims_over_time df))
  <-> f = "Yes"%string
      /\ (exists r, In r df /\ ClaimYear r = Some y
                    /\ PotentialFraud r = Some "Yes"%string)
      /\ n = length (filter (fun r => ClaimYear r = Some y
                                      /\ PotentialFraud r = Some "Yes"%string) df).
Proof.
  rewrite List.filter_In. unfold claims_over_time.
  rewrite group_sizes_In, year_flag_key, year_flag_rows. cbn [fst snd].
  rewrite String.eqb_eq. split.
  - intros [[Hr Hn] ->]. auto.
  - intros [-> [Hr Hn]]. auto.
Qed.

Lemma latest_fraud_year_unfold (df : frame) :
  latest_fraud_year df
  = match List.filter (fun e => String.eqb (snd (fst e)) "Yes")
            (claims_over_time df) with
    | [] => None
    | e :: es =>
        Some (fold_left Z.max (map (fun e => fst (fst e)) es) (fst (fst e)),
              match List.filter
                      (fun e' => fst (fst e')
                                 =? fold_left Z.max (map (fun e => fst (fst e)) es)
                                      (fst (fst e)))
                      (e :: es) with
              | [] => 0%nat
              | e' :: _ => snd e'
              end)
    end.
Proof.
  unfold latest_fraud_year. now destruct (claims_over_time df).
Qed.

(** X18. The insight under the yearly chart is absent exactly when no
    flagged row of the filtered subset has a year.  Otherwise it names the
    latest year of a flagged row together with the number of flagged rows of
    that year. *)
Theorem latest_fraud_year_spec (df : frame) :
  (latest_fraud_year df = None
   <-> forall r y, In r df -> PotentialFraud r = Some "Yes"%string ->
                   ClaimYear r <> Some y)
  /\ (forall y n, latest_fraud_year df = Some (y, n) ->
        n = length (filter (fun r => ClaimYear r = Some y
                                     /\ PotentialFraud r = Some "Yes"%string) df)
        /\ (0 < n)%nat
        /\ forall r y', In r df -> PotentialFraud r = Some "Yes"%string ->
                        ClaimYear r = Some y' -> y' <= y).
Proof.
  rewrite latest_fraud_year_unfold.
  pose proof (fraud_trend_In df) as Htrend.
  destruct (List.filter (fun e => String.eqb (snd (fst e)) "Yes")
              (claims_over_time df)) as [|e es] eqn:Hft.
  - split; [|discriminate]. split; [|reflexivity].
    intros _ r y Hr Hf Hy.
    apply (proj2 (Htrend y "Yes"%string
                    (length (filter (fun r => ClaimYear r = Some y
                                      /\ PotentialFraud r = Some "Yes"%string) df)))).
    split; [reflexivity|]. split; [now exists r|reflexivity].
  - set (latest_year := fold_left Z.max (map (fun e => fst (fst e)) es) (fst (fst e))).
    assert (Hmax : In latest_year (map (fun e => fst (fst e)) (e :: es)))
      by apply fold_max_in.
    apply in_map_iff in Hmax as ([[y0 f0] n0] & Hy0 & He0). cbn [fst] in Hy0.
    pose proof (proj1 (Htrend y0 f0 n0) He0) as (-> & (r0 & Hr0 & Hyr0 & Hfr0) & Hn0).
    split.
    { split; [discriminate|]. intros Hnone. exfalso.
      exact (Hnone r0 y0 Hr0 Hfr0 Hyr0). }
    intros y n.
    remember (List.filter (fun e' => fst (fst e') =? latest_year) (e :: es))
      as latest eqn:Hl.
    intros H. injection H as <- <-.
    assert (Hlatest : In (y0, "Yes"%string, n0) latest).
    { rewrite Hl. apply List.filter_In. split; [exact He0|]. cbn [fst].
      rewrite Hy0. apply Z.eqb_refl. }
    destruct latest as [|[[y1 f1] n1] rest]; [contradiction|].
    assert (He1 : In (y1, f1, n1)
                     (List.filter (fun e' => fst (fst e') =? latest_year) (e :: es)))
      by (rewrite <- Hl; now left).
    apply List.filter_In in He1 as [He1 Hy1]. cbn [fst] in Hy1.
    apply Z.eqb_eq in Hy1. subst y1.
    pose proof (proj1 (Htrend _ _ _) He1) as (-> & (r1 & Hr1 & Hyr1 & Hfr1) & Hn1).
    cbn [snd]. split; [exact Hn1|]. split.
    + rewrite Hn1, <- year_flag_rows. apply group_rows_nonempty.
      apply year_flag_key. now exists r1.
    + intros r y' Hr Hf Hy.
      assert (Hin : In (y', "Yes"%string,
                        length (filter (fun r => ClaimYear r = Some y'
                                          /\ PotentialFraud r = Some "Yes"%string) df))
                       (e :: es)).
      { apply Htrend. split; [reflexivity|]. split; [now exists r|reflexivity]. }
      destruct (fold_max_ge (map (fun e => fst (fst e)) es) (fst (fst e)))
        as [Hhd Htl].
      fold latest_year in Hhd, Htl.
      destruct Hin as [Heq|Hin].
      { assert (Hy' : y' = fst (fst e)) by now rewrite Heq.
        rewrite Hy'. exact Hhd. }
      rewrite List.Forall_forall in Htl. apply Htl.
      apply in_map_iff. eexists. split; [|exact Hin]. reflexivity.
Qed.

(** ** The service mix of the provider tab *)

Lemma with_provider_and_type_In (df : frame) (r : row) :
  In r (with_provider_and_type df)
  <-> In r df /\ is_Some (Provider r) /\ is_Some (ClaimType r).
Proof.
  unfold with_provider_and_type.
  rewrite List.filter_In, bool_decide_eq_true, key2_is_Some. reflexivity.
Qed.

Lemma service_mix_cell (df : frame) (p t : string) :
  List.filter (fun r => Stat.eq_str (Provider r) p && Stat.eq_str (ClaimType r) t) df
  = List.filter (fun r => Stat.eq_str (ClaimType r) t) (provider_rows p df).
Proof. unfold provider_rows. now rewrite filter_filter_andb. Qed.

Lemma service_mix_types (df : frame) (p t : string) :
  In (Some t) (map ClaimType (provider_rows p df)) ->
  In t (stable_sort String.leb
          (unique (Series.dropna (map ClaimType (with_provider_and_type df))))).
Proof.
  intros Hin. apply in_map_iff in Hin as (r & Ht & Hr).
  apply List.filter_In in Hr as [Hr Hp].
  apply bool_decide_eq_true in Hp.
  apply stable_sort_In. apply (proj2 (unique_In _ _)). apply dropna_In.
  rewrite <- Ht. apply in_map. apply with_provider_and_type_In.
  split; [exact Hr|]. split; eauto.
Qed.

Lemma service_mix_line (df : frame) (line : string * list (string * nat)) :
  In line (claim_type_by_provider df) ->
  (exists r, In r df /\ Provider r = Some (fst line) /\ is_Some (ClaimType r))
  /\ line_total line = Stat.count (map ClaimType (provider_rows (fst line) df))
  /\ forall t n, In (t, n) (snd line) ->
       n = length (filter (fun r => Provider r = Some (fst line)
                                    /\ ClaimType r = Some t) df).
Proof.
  unfold claim_type_by_provider. intros Hin.
  apply in_map_iff in Hin as (p & <- & Hp). cbn [fst snd].
  apply stable_sort_In in Hp. apply (proj1 (unique_In _ _)) in Hp.
  apply dropna_In, in_map_iff in Hp as (r & Hrp & Hr).
  apply with_provider_and_type_In in Hr as (Hr & _ & Hrt).
  split; [now exists r|]. split.
  - unfold line_total. cbn [snd]. rewrite map_map. cbn [snd].
    erewrite map_ext by (intros t; now rewrite service_mix_cell).
    apply group_sizes_sum; [apply group_keys_NoDup|].
    intros t. apply service_mix_types.
  - intros t n Hin. apply in_map_iff in Hin as (t' & Heq & _).
    injection Heq as -> <-.
    rewrite <- (filter_bool_decide
                  (fun r => Provider r = Some p /\ ClaimType r = Some t)).
    f_equal. apply List.filter_ext. intros r'. unfold Stat.eq_str.
    destruct (decide (Provider r' = Some p)) as [H1|H1];
      destruct (decide (ClaimType r' = Some t)) as [H2|H2].
    + now rewrite !bool_decide_eq_true_2 by auto.
    + rewrite (bool_decide_eq_false_2 (ClaimType r' = Some t)) by exact H2.
      rewrite andb_false_r. symmetry. apply bool_decide_eq_false_2. tauto.
    + rewrite (bool_decide_eq_false_2 (Provider r' = Some p)) by exact H1.
      symmetry. apply bool_decide_eq_false_2. tauto.
    + rewrite (bool_decide_eq_false_2 (Provider r' = Some p)) by exact H1.
      symmetry. apply bool_decide_eq_false_2. tauto.
Qed.

Lemma by_total_desc_total (x y : string * list (string * nat)) :
  by_total_desc x y = false -> by_total_desc y x = true.
Proof.
  unfold by_total_desc. intros H. apply Nat.leb_gt in H. apply Nat.leb_le. lia.
Qed.

Lemma service_mix_sorted (df : frame) :
  StronglySorted (fun x y => (line_total y <= line_total x)%nat)
    (stable_sort by_total_desc (claim_type_by_provider df)).
Proof.
  apply StronglySorted_impl_In with (R := fun x y => by_total_desc x y = true).
  - intros x y _ _ H. now apply Nat.leb_le.
  - apply Sorted_StronglySorted.
    + intros x y z. unfold by_total_desc. rewrite !Nat.leb_le. lia.
    + apply stable_sort_Sorted. apply by_total_desc_total.
Qed.

(** X19. The service-mix chart shows at most ten providers.  The total of a
    line is the number of rows of its provider that have a claim type, at
    least one, and each cell is the number of rows of that provider with
    that claim type.  The lines come in descending order of the totals and
    no provider left out has a larger total than a provider shown. *)
Theorem top_providers_spec (df : frame) :
  (length (top_providers df) <= 10)%nat
  /\ (forall line, In line (top_providers df) ->
        line_total line
        = Stat.count (map ClaimType (provider_rows (fst line) df))
        /\ (0 < line_total line)%nat
        /\ forall t n, In (t, n) (snd line) ->
             n = length (filter (fun r => Provider r = Some (fst line)
                                          /\ ClaimType r = Some t) df))
  /\ StronglySorted (fun x y => (line_total y <= line_total x)%nat)
       (top_providers df)
  /\ (forall line line', In line (top_providers df) ->
        In line' (claim_type_by_provider df) ->
        ~ In line' (top_providers df) ->
        (line_total line' <= line_total line)%nat).
Proof.
  unfold top_providers.
  split; [apply firstn_le_length|]. split.
  - intros line Hin. apply firstn_In_inv, stable_sort_In in Hin.
    destruct (service_mix_line df line Hin) as ((r & Hr & Hp & Ht) & Htotal & Hcells).
    split; [exact Htotal|]. split; [|exact Hcells].
    rewrite Htotal. unfold Stat.count.
    assert (Hin' : In (ClaimType r) (map ClaimType (provider_rows (fst line) df))).
    { apply in_map. apply List.filter_In. split; [exact Hr|].
      unfold Stat.eq_str. now apply bool_decide_eq_true_2. }
    destruct Ht as [t Ht]. rewrite Ht in Hin'. apply in_dropna in Hin'.
    destruct (Series.dropna (map ClaimType (provider_rows (fst line) df)));
      [contradiction|simpl; lia].
  - split; [apply firstn_sorted, service_mix_sorted|].
    intros line line' Hin Hin' Hout.
    apply (stable_sort_In by_total_desc) in Hin'.
    rewrite <- (firstn_skipn 10 (stable_sort by_total_desc _)) in Hin'.
    apply in_app_or in Hin' as [Hl|Hr]; [contradiction|].
    exact (firstn_tail_dominated _ 10 _ line line' (service_mix_sorted df) Hin Hr).
Qed.

(** ** The insight on the riskiest condition *)





